(** * Weather/time MCP server: normalisation, time buckets and lookups

    A shallow embedding of [src/mcp-server/04-weather-server/server-mcp-sse-weather.py]:
    the location table, [_normalize_location], [_get_time_bucket],
    [list_supported_locations], [get_weather_at_location] and
    [get_weather_for_multiple_locations], together with the behaviour of the
    Python [str] methods ([strip], [lower], [title], [upper]) the code relies on;
    and of [get_current_time_local], the local tool of
    [src/scenarios/01-hello-world-agent/time-weather-agent.py].

    Python strings are sequences of Unicode code points, so [str] is a list of
    code points and the case tables are those of the Unicode Character Database
    14.0 that CPython 3.11 ships. Clock reads and raised exceptions are explicit:
    a program is a function from the number of clock reads made so far to an
    outcome (a value or a raised exception) and the new number of reads. *)

From Stdlib Require Import NArith Bool String Ascii List Lia.
Import ListNotations.
Local Open Scope N_scope.

(** ** Python strings *)

Definition codepoint := N.
Definition str := list codepoint.

(** An ASCII literal as a Python string. *)
Definition py (s : string) : str := map N_of_ascii (list_ascii_of_string s).

Fixpoint str_eqb (a b : str) : bool :=
  match a, b with
  | [], [] => true
  | x :: a', y :: b' => (x =? y) && str_eqb a' b'
  | _, _ => false
  end.

(** ** Unicode character database (UCD 14.0, as in CPython 3.11) *)

Module Unicode.

(** A run of simple case mappings [(lo, hi, step, img)]: every code point
    [lo + k * step <= hi] maps to [img + k * step]. *)
Definition shift := (N * N * N * N)%type.

(** Code points for which [Py_UNICODE_ISSPACE] holds; [str.strip()] removes exactly these. *)
Definition whitespace_ranges : list (N * N) :=
  [ (0x9, 0xD); (0x1C, 0x20); (0x85, 0x85); (0xA0, 0xA0); (0x1680, 0x1680);
    (0x2000, 0x200A); (0x2028, 0x2029); (0x202F, 0x202F); (0x205F, 0x205F); (0x3000, 0x3000) ]%N.

(** Code points with the Cased property ([_PyUnicode_IsCased]). *)
Definition cased_ranges : list (N * N) :=
  [ (0x41, 0x5A); (0x61, 0x7A); (0xAA, 0xAA); (0xB5, 0xB5); (0xBA, 0xBA);
    (0xC0, 0xD6); (0xD8, 0xF6); (0xF8, 0x1BA); (0x1BC, 0x1BF); (0x1C4, 0x293);
    (0x295, 0x2B8); (0x2C0, 0x2C1); (0x2E0, 0x2E4); (0x345, 0x345); (0x370, 0x373);
    (0x376, 0x377); (0x37A, 0x37D); (0x37F, 0x37F); (0x386, 0x386); (0x388, 0x38A);
    (0x38C, 0x38C); (0x38E, 0x3A1); (0x3A3, 0x3F5); (0x3F7, 0x481); (0x48A, 0x52F);
    (0x531, 0x556); (0x560, 0x588); (0x10A0, 0x10C5); (0x10C7, 0x10C7); (0x10CD, 0x10CD);
    (0x10D0, 0x10FA); (0x10FD, 0x10FF); (0x13A0, 0x13F5); (0x13F8, 0x13FD); (0x1C80, 0x1C88);
    (0x1C90, 0x1CBA); (0x1CBD, 0x1CBF); (0x1D00, 0x1DBF); (0x1E00, 0x1F15); (0x1F18, 0x1F1D);
    (0x1F20, 0x1F45); (0x1F48, 0x1F4D); (0x1F50, 0x1F57); (0x1F59, 0x1F59); (0x1F5B, 0x1F5B);
    (0x1F5D, 0x1F5D); (0x1F5F, 0x1F7D); (0x1F80, 0x1FB4); (0x1FB6, 0x1FBC); (0x1FBE, 0x1FBE);
    (0x1FC2, 0x1FC4); (0x1FC6, 0x1FCC); (0x1FD0, 0x1FD3); (0x1FD6, 0x1FDB); (0x1FE0, 0x1FEC);
    (0x1FF2, 0x1FF4); (0x1FF6, 0x1FFC); (0x2071, 0x2071); (0x207F, 0x207F); (0x2090, 0x209C);
    (0x2102, 0x2102); (0x2107, 0x2107); (0x210A, 0x2113); (0x2115, 0x2115); (0x2119, 0x211D);
    (0x2124, 0x2124); (0x2126, 0x2126); (0x2128, 0x2128); (0x212A, 0x212D); (0x212F, 0x2134);
    (0x2139, 0x2139); (0x213C, 0x213F); (0x2145, 0x2149); (0x214E, 0x214E); (0x2160, 0x217F);
    (0x2183, 0x2184); (0x24B6, 0x24E9); (0x2C00, 0x2CE4); (0x2CEB, 0x2CEE); (0x2CF2, 0x2CF3);
    (0x2D00, 0x2D25); (0x2D27, 0x2D27); (0x2D2D, 0x2D2D); (0xA640, 0xA66D); (0xA680, 0xA69D);
    (0xA722, 0xA787); (0xA78B, 0xA78E); (0xA790, 0xA7CA); (0xA7D0, 0xA7D1); (0xA7D3, 0xA7D3);
    (0xA7D5, 0xA7D9); (0xA7F5, 0xA7F6); (0xA7F8, 0xA7FA); (0xAB30, 0xAB5A); (0xAB5C, 0xAB68);
    (0xAB70, 0xABBF); (0xFB00, 0xFB06); (0xFB13, 0xFB17); (0xFF21, 0xFF3A); (0xFF41, 0xFF5A);
    (0x10400, 0x1044F); (0x104B0, 0x104D3); (0x104D8, 0x104FB); (0x10570, 0x1057A); (0x1057C, 0x1058A);
    (0x1058C, 0x10592); (0x10594, 0x10595); (0x10597, 0x105A1); (0x105A3, 0x105B1); (0x105B3, 0x105B9);
    (0x105BB, 0x105BC); (0x10780, 0x10780); (0x10783, 0x10785); (0x10787, 0x107B0); (0x107B2, 0x107BA);
    (0x10C80, 0x10CB2); (0x10CC0, 0x10CF2); (0x118A0, 0x118DF); (0x16E40, 0x16E7F); (0x1D400, 0x1D454);
    (0x1D456, 0x1D49C); (0x1D49E, 0x1D49F); (0x1D4A2, 0x1D4A2); (0x1D4A5, 0x1D4A6); (0x1D4A9, 0x1D4AC);
    (0x1D4AE, 0x1D4B9); (0x1D4BB, 0x1D4BB); (0x1D4BD, 0x1D4C3); (0x1D4C5, 0x1D505); (0x1D507, 0x1D50A);
    (0x1D50D, 0x1D514); (0x1D516, 0x1D51C); (0x1D51E, 0x1D539); (0x1D53B, 0x1D53E); (0x1D540, 0x1D544);
    (0x1D546, 0x1D546); (0x1D54A, 0x1D550); (0x1D552, 0x1D6A5); (0x1D6A8, 0x1D6C0); (0x1D6C2, 0x1D6DA);
    (0x1D6DC, 0x1D6FA); (0x1D6FC, 0x1D714); (0x1D716, 0x1D734); (0x1D736, 0x1D74E); (0x1D750, 0x1D76E);
    (0x1D770, 0x1D788); (0x1D78A, 0x1D7A8); (0x1D7AA, 0x1D7C2); (0x1D7C4, 0x1D7CB); (0x1DF00, 0x1DF09);
    (0x1DF0B, 0x1DF1E); (0x1E900, 0x1E943); (0x1F130, 0x1F149); (0x1F150, 0x1F169); (0x1F170, 0x1F189) ]%N.

(** Code points with the Case_Ignorable property ([_PyUnicode_IsCaseIgnorable]). *)
Definition case_ignorable_ranges : list (N * N) :=
  [ (0x27, 0x27); (0x2E, 0x2E); (0x3A, 0x3A); (0x5E, 0x5E); (0x60, 0x60);
    (0xA8, 0xA8); (0xAD, 0xAD); (0xAF, 0xAF); (0xB4, 0xB4); (0xB7, 0xB8);
    (0x2B0, 0x36F); (0x374, 0x375); (0x37A, 0x37A); (0x384, 0x385); (0x387, 0x387);
    (0x483, 0x489); (0x559, 0x559); (0x55F, 0x55F); (0x591, 0x5BD); (0x5BF, 0x5BF);
    (0x5C1, 0x5C2); (0x5C4, 0x5C5); (0x5C7, 0x5C7); (0x5F4, 0x5F4); (0x600, 0x605);
    (0x610, 0x61A); (0x61C, 0x61C); (0x640, 0x640); (0x64B, 0x65F); (0x670, 0x670);
    (0x6D6, 0x6DD); (0x6DF, 0x6E8); (0x6EA, 0x6ED); (0x70F, 0x70F); (0x711, 0x711);
    (0x730, 0x74A); (0x7A6, 0x7B0); (0x7EB, 0x7F5); (0x7FA, 0x7FA); (0x7FD, 0x7FD);
    (0x816, 0x82D); (0x859, 0x85B); (0x888, 0x888); (0x890, 0x891); (0x898, 0x89F);
    (0x8C9, 0x902); (0x93A, 0x93A); (0x93C, 0x93C); (0x941, 0x948); (0x94D, 0x94D);
    (0x951, 0x957); (0x962, 0x963); (0x971, 0x971); (0x981, 0x981); (0x9BC, 0x9BC);
    (0x9C1, 0x9C4); (0x9CD, 0x9CD); (0x9E2, 0x9E3); (0x9FE, 0x9FE); (0xA01, 0xA02);
    (0xA3C, 0xA3C); (0xA41, 0xA42); (0xA47, 0xA48); (0xA4B, 0xA4D); (0xA51, 0xA51);
    (0xA70, 0xA71); (0xA75, 0xA75); (0xA81, 0xA82); (0xABC, 0xABC); (0xAC1, 0xAC5);
    (0xAC7, 0xAC8); (0xACD, 0xACD); (0xAE2, 0xAE3); (0xAFA, 0xAFF); (0xB01, 0xB01);
    (0xB3C, 0xB3C); (0xB3F, 0xB3F); (0xB41, 0xB44); (0xB4D, 0xB4D); (0xB55, 0xB56);
    (0xB62, 0xB63); (0xB82, 0xB82); (0xBC0, 0xBC0); (0xBCD, 0xBCD); (0xC00, 0xC00);
    (0xC04, 0xC04); (0xC3C, 0xC3C); (0xC3E, 0xC40); (0xC46, 0xC48); (0xC4A, 0xC4D);
    (0xC55, 0xC56); (0xC62, 0xC63); (0xC81, 0xC81); (0xCBC, 0xCBC); (0xCBF, 0xCBF);
    (0xCC6, 0xCC6); (0xCCC, 0xCCD); (0xCE2, 0xCE3); (0xD00, 0xD01); (0xD3B, 0xD3C);
    (0xD41, 0xD44); (0xD4D, 0xD4D); (0xD62, 0xD63); (0xD81, 0xD81); (0xDCA, 0xDCA);
    (0xDD2, 0xDD4); (0xDD6, 0xDD6); (0xE31, 0xE31); (0xE34, 0xE3A); (0xE46, 0xE4E);
    (0xEB1, 0xEB1); (0xEB4, 0xEBC); (0xEC6, 0xEC6); (0xEC8, 0xECD); (0xF18, 0xF19);
    (0xF35, 0xF35); (0xF37, 0xF37); (0xF39, 0xF39); (0xF71, 0xF7E); (0xF80, 0xF84);
    (0xF86, 0xF87); (0xF8D, 0xF97); (0xF99, 0xFBC); (0xFC6, 0xFC6); (0x102D, 0x1030);
    (0x1032, 0x1037); (0x1039, 0x103A); (0x103D, 0x103E); (0x1058, 0x1059); (0x105E, 0x1060);
    (0x1071, 0x1074); (0x1082, 0x1082); (0x1085, 0x1086); (0x108D, 0x108D); (0x109D, 0x109D);
    (0x10FC, 0x10FC); (0x135D, 0x135F); (0x1712, 0x1714); (0x1732, 0x1733); (0x1752, 0x1753);
    (0x1772, 0x1773); (0x17B4, 0x17B5); (0x17B7, 0x17BD); (0x17C6, 0x17C6); (0x17C9, 0x17D3);
    (0x17D7, 0x17D7); (0x17DD, 0x17DD); (0x180B, 0x180F); (0x1843, 0x1843); (0x1885, 0x1886);
    (0x18A9, 0x18A9); (0x1920, 0x1922); (0x1927, 0x1928); (0x1932, 0x1932); (0x1939, 0x193B);
    (0x1A17, 0x1A18); (0x1A1B, 0x1A1B); (0x1A56, 0x1A56); (0x1A58, 0x1A5E); (0x1A60, 0x1A60);
    (0x1A62, 0x1A62); (0x1A65, 0x1A6C); (0x1A73, 0x1A7C); (0x1A7F, 0x1A7F); (0x1AA7, 0x1AA7);
    (0x1AB0, 0x1ACE); (0x1B00, 0x1B03); (0x1B34, 0x1B34); (0x1B36, 0x1B3A); (0x1B3C, 0x1B3C);
    (0x1B42, 0x1B42); (0x1B6B, 0x1B73); (0x1B80, 0x1B81); (0x1BA2, 0x1BA5); (0x1BA8, 0x1BA9);
    (0x1BAB, 0x1BAD); (0x1BE6, 0x1BE6); (0x1BE8, 0x1BE9); (0x1BED, 0x1BED); (0x1BEF, 0x1BF1);
    (0x1C2C, 0x1C33); (0x1C36, 0x1C37); (0x1C78, 0x1C7D); (0x1CD0, 0x1CD2); (0x1CD4, 0x1CE0);
    (0x1CE2, 0x1CE8); (0x1CED, 0x1CED); (0x1CF4, 0x1CF4); (0x1CF8, 0x1CF9); (0x1D2C, 0x1D6A);
    (0x1D78, 0x1D78); (0x1D9B, 0x1DFF); (0x1FBD, 0x1FBD); (0x1FBF, 0x1FC1); (0x1FCD, 0x1FCF);
    (0x1FDD, 0x1FDF); (0x1FED, 0x1FEF); (0x1FFD, 0x1FFE); (0x200B, 0x200F); (0x2018, 0x2019);
    (0x2024, 0x2024); (0x2027, 0x2027); (0x202A, 0x202E); (0x2060, 0x2064); (0x2066, 0x206F);
    (0x2071, 0x2071); (0x207F, 0x207F); (0x2090, 0x209C); (0x20D0, 0x20F0); (0x2C7C, 0x2C7D);
    (0x2CEF, 0x2CF1); (0x2D6F, 0x2D6F); (0x2D7F, 0x2D7F); (0x2DE0, 0x2DFF); (0x2E2F, 0x2E2F);
    (0x3005, 0x3005); (0x302A, 0x302D); (0x3031, 0x3035); (0x303B, 0x303B); (0x3099, 0x309E);
    (0x30FC, 0x30FE); (0xA015, 0xA015); (0xA4F8, 0xA4FD); (0xA60C, 0xA60C); (0xA66F, 0xA672);
    (0xA674, 0xA67D); (0xA67F, 0xA67F); (0xA69C, 0xA69F); (0xA6F0, 0xA6F1); (0xA700, 0xA721);
    (0xA770, 0xA770); (0xA788, 0xA78A); (0xA7F2, 0xA7F4); (0xA7F8, 0xA7F9); (0xA802, 0xA802);
    (0xA806, 0xA806); (0xA80B, 0xA80B); (0xA825, 0xA826); (0xA82C, 0xA82C); (0xA8C4, 0xA8C5);
    (0xA8E0, 0xA8F1); (0xA8FF, 0xA8FF); (0xA926, 0xA92D); (0xA947, 0xA951); (0xA980, 0xA982);
    (0xA9B3, 0xA9B3); (0xA9B6, 0xA9B9); (0xA9BC, 0xA9BD); (0xA9CF, 0xA9CF); (0xA9E5, 0xA9E6);
    (0xAA29, 0xAA2E); (0xAA31, 0xAA32); (0xAA35, 0xAA36); (0xAA43, 0xAA43); (0xAA4C, 0xAA4C);
    (0xAA70, 0xAA70); (0xAA7C, 0xAA7C); (0xAAB0, 0xAAB0); (0xAAB2, 0xAAB4); (0xAAB7, 0xAAB8);
    (0xAABE, 0xAABF); (0xAAC1, 0xAAC1); (0xAADD, 0xAADD); (0xAAEC, 0xAAED); (0xAAF3, 0xAAF4);
    (0xAAF6, 0xAAF6); (0xAB5B, 0xAB5F); (0xAB69, 0xAB6B); (0xABE5, 0xABE5); (0xABE8, 0xABE8);
    (0xABED, 0xABED); (0xFB1E, 0xFB1E); (0xFBB2, 0xFBC2); (0xFE00, 0xFE0F); (0xFE13, 0xFE13);
    (0xFE20, 0xFE2F); (0xFE52, 0xFE52); (0xFE55, 0xFE55); (0xFEFF, 0xFEFF); (0xFF07, 0xFF07);
    (0xFF0E, 0xFF0E); (0xFF1A, 0xFF1A); (0xFF3E, 0xFF3E); (0xFF40, 0xFF40); (0xFF70, 0xFF70);
    (0xFF9E, 0xFF9F); (0xFFE3, 0xFFE3); (0xFFF9, 0xFFFB); (0x101FD, 0x101FD); (0x102E0, 0x102E0);
    (0x10376, 0x1037A); (0x10780, 0x10785); (0x10787, 0x107B0); (0x107B2, 0x107BA); (0x10A01, 0x10A03);
    (0x10A05, 0x10A06); (0x10A0C, 0x10A0F); (0x10A38, 0x10A3A); (0x10A3F, 0x10A3F); (0x10AE5, 0x10AE6);
    (0x10D24, 0x10D27); (0x10EAB, 0x10EAC); (0x10F46, 0x10F50); (0x10F82, 0x10F85); (0x11001, 0x11001);
    (0x11038, 0x11046); (0x11070, 0x11070); (0x11073, 0x11074); (0x1107F, 0x11081); (0x110B3, 0x110B6);
    (0x110B9, 0x110BA); (0x110BD, 0x110BD); (0x110C2, 0x110C2); (0x110CD, 0x110CD); (0x11100, 0x11102);
    (0x11127, 0x1112B); (0x1112D, 0x11134); (0x11173, 0x11173); (0x11180, 0x11181); (0x111B6, 0x111BE);
    (0x111C9, 0x111CC); (0x111CF, 0x111CF); (0x1122F, 0x11231); (0x11234, 0x11234); (0x11236, 0x11237);
    (0x1123E, 0x1123E); (0x112DF, 0x112DF); (0x112E3, 0x112EA); (0x11300, 0x11301); (0x1133B, 0x1133C);
    (0x11340, 0x11340); (0x11366, 0x1136C); (0x11370, 0x11374); (0x11438, 0x1143F); (0x11442, 0x11444);
    (0x11446, 0x11446); (0x1145E, 0x1145E); (0x114B3, 0x114B8); (0x114BA, 0x114BA); (0x114BF, 0x114C0);
    (0x114C2, 0x114C3); (0x115B2, 0x115B5); (0x115BC, 0x115BD); (0x115BF, 0x115C0); (0x115DC, 0x115DD);
    (0x11633, 0x1163A); (0x1163D, 0x1163D); (0x1163F, 0x11640); (0x116AB, 0x116AB); (0x116AD, 0x116AD);
    (0x116B0, 0x116B5); (0x116B7, 0x116B7); (0x1171D, 0x1171F); (0x11722, 0x11725); (0x11727, 0x1172B);
    (0x1182F, 0x11837); (0x11839, 0x1183A); (0x1193B, 0x1193C); (0x1193E, 0x1193E); (0x11943, 0x11943);
    (0x119D4, 0x119D7); (0x119DA, 0x119DB); (0x119E0, 0x119E0); (0x11A01, 0x11A0A); (0x11A33, 0x11A38);
    (0x11A3B, 0x11A3E); (0x11A47, 0x11A47); (0x11A51, 0x11A56); (0x11A59, 0x11A5B); (0x11A8A, 0x11A96);
    (0x11A98, 0x11A99); (0x11C30, 0x11C36); (0x11C38, 0x11C3D); (0x11C3F, 0x11C3F); (0x11C92, 0x11CA7);
    (0x11CAA, 0x11CB0); (0x11CB2, 0x11CB3); (0x11CB5, 0x11CB6); (0x11D31, 0x11D36); (0x11D3A, 0x11D3A);
    (0x11D3C, 0x11D3D); (0x11D3F, 0x11D45); (0x11D47, 0x11D47); (0x11D90, 0x11D91); (0x11D95, 0x11D95);
    (0x11D97, 0x11D97); (0x11EF3, 0x11EF4); (0x13430, 0x13438); (0x16AF0, 0x16AF4); (0x16B30, 0x16B36);
    (0x16B40, 0x16B43); (0x16F4F, 0x16F4F); (0x16F8F, 0x16F9F); (0x16FE0, 0x16FE1); (0x16FE3, 0x16FE4);
    (0x1AFF0, 0x1AFF3); (0x1AFF5, 0x1AFFB); (0x1AFFD, 0x1AFFE); (0x1BC9D, 0x1BC9E); (0x1BCA0, 0x1BCA3);
    (0x1CF00, 0x1CF2D); (0x1CF30, 0x1CF46); (0x1D167, 0x1D169); (0x1D173, 0x1D182); (0x1D185, 0x1D18B);
    (0x1D1AA, 0x1D1AD); (0x1D242, 0x1D244); (0x1DA00, 0x1DA36); (0x1DA3B, 0x1DA6C); (0x1DA75, 0x1DA75);
    (0x1DA84, 0x1DA84); (0x1DA9B, 0x1DA9F); (0x1DAA1, 0x1DAAF); (0x1E000, 0x1E006); (0x1E008, 0x1E018);
    (0x1E01B, 0x1E021); (0x1E023, 0x1E024); (0x1E026, 0x1E02A); (0x1E130, 0x1E13D); (0x1E2AE, 0x1E2AE);
    (0x1E2EC, 0x1E2EF); (0x1E8D0, 0x1E8D6); (0x1E944, 0x1E94B); (0x1F3FB, 0x1F3FF); (0xE0001, 0xE0001);
    (0xE0020, 0xE007F); (0xE0100, 0xE01EF) ]%N.

(** Simple lower-case mappings. *)
Definition lower_shifts : list shift :=
  [ (0x41, 0x5A, 1, 0x61); (0xC0, 0xD6, 1, 0xE0); (0xD8, 0xDE, 1, 0xF8);
    (0x100, 0x12E, 2, 0x101); (0x132, 0x136, 2, 0x133); (0x139, 0x147, 2, 0x13A);
    (0x14A, 0x176, 2, 0x14B); (0x178, 0x178, 1, 0xFF); (0x179, 0x17D, 2, 0x17A);
    (0x181, 0x181, 1, 0x253); (0x182, 0x184, 2, 0x183); (0x186, 0x186, 1, 0x254);
    (0x187, 0x187, 1, 0x188); (0x189, 0x18A, 1, 0x256); (0x18B, 0x18B, 1, 0x18C);
    (0x18E, 0x18E, 1, 0x1DD); (0x18F, 0x18F, 1, 0x259); (0x190, 0x190, 1, 0x25B);
    (0x191, 0x191, 1, 0x192); (0x193, 0x193, 1, 0x260); (0x194, 0x194, 1, 0x263);
    (0x196, 0x196, 1, 0x269); (0x197, 0x197, 1, 0x268); (0x198, 0x198, 1, 0x199);
    (0x19C, 0x19C, 1, 0x26F); (0x19D, 0x19D, 1, 0x272); (0x19F, 0x19F, 1, 0x275);
    (0x1A0, 0x1A4, 2, 0x1A1); (0x1A6, 0x1A6, 1, 0x280); (0x1A7, 0x1A7, 1, 0x1A8);
    (0x1A9, 0x1A9, 1, 0x283); (0x1AC, 0x1AC, 1, 0x1AD); (0x1AE, 0x1AE, 1, 0x288);
    (0x1AF, 0x1AF, 1, 0x1B0); (0x1B1, 0x1B2, 1, 0x28A); (0x1B3, 0x1B5, 2, 0x1B4);
    (0x1B7, 0x1B7, 1, 0x292); (0x1B8, 0x1B8, 1, 0x1B9); (0x1BC, 0x1BC, 1, 0x1BD);
    (0x1C4, 0x1C4, 1, 0x1C6); (0x1C5, 0x1C5, 1, 0x1C6); (0x1C7, 0x1C7, 1, 0x1C9);
    (0x1C8, 0x1C8, 1, 0x1C9); (0x1CA, 0x1CA, 1, 0x1CC); (0x1CB, 0x1DB, 2, 0x1CC);
    (0x1DE, 0x1EE, 2, 0x1DF); (0x1F1, 0x1F1, 1, 0x1F3); (0x1F2, 0x1F4, 2, 0x1F3);
    (0x1F6, 0x1F6, 1, 0x195); (0x1F7, 0x1F7, 1, 0x1BF); (0x1F8, 0x21E, 2, 0x1F9);
    (0x220, 0x220, 1, 0x19E); (0x222, 0x232, 2, 0x223); (0x23A, 0x23A, 1, 0x2C65);
    (0x23B, 0x23B, 1, 0x23C); (0x23D, 0x23D, 1, 0x19A); (0x23E, 0x23E, 1, 0x2C66);
    (0x241, 0x241, 1, 0x242); (0x243, 0x243, 1, 0x180); (0x244, 0x244, 1, 0x289);
    (0x245, 0x245, 1, 0x28C); (0x246, 0x24E, 2, 0x247); (0x370, 0x372, 2, 0x371);
    (0x376, 0x376, 1, 0x377); (0x37F, 0x37F, 1, 0x3F3); (0x386, 0x386, 1, 0x3AC);
    (0x388, 0x38A, 1, 0x3AD); (0x38C, 0x38C, 1, 0x3CC); (0x38E, 0x38F, 1, 0x3CD);
    (0x391, 0x3A1, 1, 0x3B1); (0x3A3, 0x3AB, 1, 0x3C3); (0x3CF, 0x3CF, 1, 0x3D7);
    (0x3D8, 0x3EE, 2, 0x3D9); (0x3F4, 0x3F4, 1, 0x3B8); (0x3F7, 0x3F7, 1, 0x3F8);
    (0x3F9, 0x3F9, 1, 0x3F2); (0x3FA, 0x3FA, 1, 0x3FB); (0x3FD, 0x3FF, 1, 0x37B);
    (0x400, 0x40F, 1, 0x450); (0x410, 0x42F, 1, 0x430); (0x460, 0x480, 2, 0x461);
    (0x48A, 0x4BE, 2, 0x48B); (0x4C0, 0x4C0, 1, 0x4CF); (0x4C1, 0x4CD, 2, 0x4C2);
    (0x4D0, 0x52E, 2, 0x4D1); (0x531, 0x556, 1, 0x561); (0x10A0, 0x10C5, 1, 0x2D00);
    (0x10C7, 0x10C7, 1, 0x2D27); (0x10CD, 0x10CD, 1, 0x2D2D); (0x13A0, 0x13EF, 1, 0xAB70);
    (0x13F0, 0x13F5, 1, 0x13F8); (0x1C90, 0x1CBA, 1, 0x10D0); (0x1CBD, 0x1CBF, 1, 0x10FD);
    (0x1E00, 0x1E94, 2, 0x1E01); (0x1E9E, 0x1E9E, 1, 0xDF); (0x1EA0, 0x1EFE, 2, 0x1EA1);
    (0x1F08, 0x1F0F, 1, 0x1F00); (0x1F18, 0x1F1D, 1, 0x1F10); (0x1F28, 0x1F2F, 1, 0x1F20);
    (0x1F38, 0x1F3F, 1, 0x1F30); (0x1F48, 0x1F4D, 1, 0x1F40); (0x1F59, 0x1F5F, 2, 0x1F51);
    (0x1F68, 0x1F6F, 1, 0x1F60); (0x1F88, 0x1F8F, 1, 0x1F80); (0x1F98, 0x1F9F, 1, 0x1F90);
    (0x1FA8, 0x1FAF, 1, 0x1FA0); (0x1FB8, 0x1FB9, 1, 0x1FB0); (0x1FBA, 0x1FBB, 1, 0x1F70);
    (0x1FBC, 0x1FBC, 1, 0x1FB3); (0x1FC8, 0x1FCB, 1, 0x1F72); (0x1FCC, 0x1FCC, 1, 0x1FC3);
    (0x1FD8, 0x1FD9, 1, 0x1FD0); (0x1FDA, 0x1FDB, 1, 0x1F76); (0x1FE8, 0x1FE9, 1, 0x1FE0);
    (0x1FEA, 0x1FEB, 1, 0x1F7A); (0x1FEC, 0x1FEC, 1, 0x1FE5); (0x1FF8, 0x1FF9, 1, 0x1F78);
    (0x1FFA, 0x1FFB, 1, 0x1F7C); (0x1FFC, 0x1FFC, 1, 0x1FF3); (0x2126, 0x2126, 1, 0x3C9);
    (0x212A, 0x212A, 1, 0x6B); (0x212B, 0x212B, 1, 0xE5); (0x2132, 0x2132, 1, 0x214E);
    (0x2160, 0x216F, 1, 0x2170); (0x2183, 0x2183, 1, 0x2184); (0x24B6, 0x24CF, 1, 0x24D0);
    (0x2C00, 0x2C2F, 1, 0x2C30); (0x2C60, 0x2C60, 1, 0x2C61); (0x2C62, 0x2C62, 1, 0x26B);
    (0x2C63, 0x2C63, 1, 0x1D7D); (0x2C64, 0x2C64, 1, 0x27D); (0x2C67, 0x2C6B, 2, 0x2C68);
    (0x2C6D, 0x2C6D, 1, 0x251); (0x2C6E, 0x2C6E, 1, 0x271); (0x2C6F, 0x2C6F, 1, 0x250);
    (0x2C70, 0x2C70, 1, 0x252); (0x2C72, 0x2C72, 1, 0x2C73); (0x2C75, 0x2C75, 1, 0x2C76);
    (0x2C7E, 0x2C7F, 1, 0x23F); (0x2C80, 0x2CE2, 2, 0x2C81); (0x2CEB, 0x2CED, 2, 0x2CEC);
    (0x2CF2, 0x2CF2, 1, 0x2CF3); (0xA640, 0xA66C, 2, 0xA641); (0xA680, 0xA69A, 2, 0xA681);
    (0xA722, 0xA72E, 2, 0xA723); (0xA732, 0xA76E, 2, 0xA733); (0xA779, 0xA77B, 2, 0xA77A);
    (0xA77D, 0xA77D, 1, 0x1D79); (0xA77E, 0xA786, 2, 0xA77F); (0xA78B, 0xA78B, 1, 0xA78C);
    (0xA78D, 0xA78D, 1, 0x265); (0xA790, 0xA792, 2, 0xA791); (0xA796, 0xA7A8, 2, 0xA797);
    (0xA7AA, 0xA7AA, 1, 0x266); (0xA7AB, 0xA7AB, 1, 0x25C); (0xA7AC, 0xA7AC, 1, 0x261);
    (0xA7AD, 0xA7AD, 1, 0x26C); (0xA7AE, 0xA7AE, 1, 0x26A); (0xA7B0, 0xA7B0, 1, 0x29E);
    (0xA7B1, 0xA7B1, 1, 0x287); (0xA7B2, 0xA7B2, 1, 0x29D); (0xA7B3, 0xA7B3, 1, 0xAB53);
    (0xA7B4, 0xA7C2, 2, 0xA7B5); (0xA7C4, 0xA7C4, 1, 0xA794); (0xA7C5, 0xA7C5, 1, 0x282);
    (0xA7C6, 0xA7C6, 1, 0x1D8E); (0xA7C7, 0xA7C9, 2, 0xA7C8); (0xA7D0, 0xA7D0, 1, 0xA7D1);
    (0xA7D6, 0xA7D8, 2, 0xA7D7); (0xA7F5, 0xA7F5, 1, 0xA7F6); (0xFF21, 0xFF3A, 1, 0xFF41);
    (0x10400, 0x10427, 1, 0x10428); (0x104B0, 0x104D3, 1, 0x104D8); (0x10570, 0x10594, 2, 0x10597);
    (0x10571, 0x10579, 2, 0x10598); (0x1057D, 0x10589, 2, 0x105A4); (0x1058D, 0x10591, 2, 0x105B4);
    (0x10595, 0x10595, 1, 0x105BC); (0x10C80, 0x10CB2, 1, 0x10CC0); (0x118A0, 0x118BF, 1, 0x118C0);
    (0x16E40, 0x16E5F, 1, 0x16E60); (0x1E900, 0x1E921, 1, 0x1E922) ]%N.

(** Lower-case mappings to more than one code point. *)
Definition lower_special : list (N * list N) :=
  [ (0x130, [0x69; 0x307]) ]%N.

(** Simple title-case mappings. *)
Definition title_shifts : list shift :=
  [ (0x61, 0x7A, 1, 0x41); (0xB5, 0xB5, 1, 0x39C); (0xE0, 0xF6, 1, 0xC0);
    (0xF8, 0xFE, 1, 0xD8); (0xFF, 0xFF, 1, 0x178); (0x101, 0x12F, 2, 0x100);
    (0x131, 0x131, 1, 0x49); (0x133, 0x137, 2, 0x132); (0x13A, 0x148, 2, 0x139);
    (0x14B, 0x177, 2, 0x14A); (0x17A, 0x17E, 2, 0x179); (0x17F, 0x17F, 1, 0x53);
    (0x180, 0x180, 1, 0x243); (0x183, 0x185, 2, 0x182); (0x188, 0x188, 1, 0x187);
    (0x18C, 0x18C, 1, 0x18B); (0x192, 0x192, 1, 0x191); (0x195, 0x195, 1, 0x1F6);
    (0x199, 0x199, 1, 0x198); (0x19A, 0x19A, 1, 0x23D); (0x19E, 0x19E, 1, 0x220);
    (0x1A1, 0x1A5, 2, 0x1A0); (0x1A8, 0x1A8, 1, 0x1A7); (0x1AD, 0x1AD, 1, 0x1AC);
    (0x1B0, 0x1B0, 1, 0x1AF); (0x1B4, 0x1B6, 2, 0x1B3); (0x1B9, 0x1B9, 1, 0x1B8);
    (0x1BD, 0x1BD, 1, 0x1BC); (0x1BF, 0x1BF, 1, 0x1F7); (0x1C4, 0x1C4, 1, 0x1C5);
    (0x1C6, 0x1C6, 1, 0x1C5); (0x1C7, 0x1C7, 1, 0x1C8); (0x1C9, 0x1C9, 1, 0x1C8);
    (0x1CA, 0x1CA, 1, 0x1CB); (0x1CC, 0x1DC, 2, 0x1CB); (0x1DD, 0x1DD, 1, 0x18E);
    (0x1DF, 0x1EF, 2, 0x1DE); (0x1F1, 0x1F1, 1, 0x1F2); (0x1F3, 0x1F5, 2, 0x1F2);
    (0x1F9, 0x21F, 2, 0x1F8); (0x223, 0x233, 2, 0x222); (0x23C, 0x23C, 1, 0x23B);
    (0x23F, 0x240, 1, 0x2C7E); (0x242, 0x242, 1, 0x241); (0x247, 0x24F, 2, 0x246);
    (0x250, 0x250, 1, 0x2C6F); (0x251, 0x251, 1, 0x2C6D); (0x252, 0x252, 1, 0x2C70);
    (0x253, 0x253, 1, 0x181); (0x254, 0x254, 1, 0x186); (0x256, 0x257, 1, 0x189);
    (0x259, 0x259, 1, 0x18F); (0x25B, 0x25B, 1, 0x190); (0x25C, 0x25C, 1, 0xA7AB);
    (0x260, 0x260, 1, 0x193); (0x261, 0x261, 1, 0xA7AC); (0x263, 0x263, 1, 0x194);
    (0x265, 0x265, 1, 0xA78D); (0x266, 0x266, 1, 0xA7AA); (0x268, 0x268, 1, 0x197);
    (0x269, 0x269, 1, 0x196); (0x26A, 0x26A, 1, 0xA7AE); (0x26B, 0x26B, 1, 0x2C62);
    (0x26C, 0x26C, 1, 0xA7AD); (0x26F, 0x26F, 1, 0x19C); (0x271, 0x271, 1, 0x2C6E);
    (0x272, 0x272, 1, 0x19D); (0x275, 0x275, 1, 0x19F); (0x27D, 0x27D, 1, 0x2C64);
    (0x280, 0x280, 1, 0x1A6); (0x282, 0x282, 1, 0xA7C5); (0x283, 0x283, 1, 0x1A9);
    (0x287, 0x287, 1, 0xA7B1); (0x288, 0x288, 1, 0x1AE); (0x289, 0x289, 1, 0x244);
    (0x28A, 0x28B, 1, 0x1B1); (0x28C, 0x28C, 1, 0x245); (0x292, 0x292, 1, 0x1B7);
    (0x29D, 0x29D, 1, 0xA7B2); (0x29E, 0x29E, 1, 0xA7B0); (0x345, 0x345, 1, 0x399);
    (0x371, 0x373, 2, 0x370); (0x377, 0x377, 1, 0x376); (0x37B, 0x37D, 1, 0x3FD);
    (0x3AC, 0x3AC, 1, 0x386); (0x3AD, 0x3AF, 1, 0x388); (0x3B1, 0x3C1, 1, 0x391);
    (0x3C2, 0x3C2, 1, 0x3A3); (0x3C3, 0x3CB, 1, 0x3A3); (0x3CC, 0x3CC, 1, 0x38C);
    (0x3CD, 0x3CE, 1, 0x38E); (0x3D0, 0x3D0, 1, 0x392); (0x3D1, 0x3D1, 1, 0x398);
    (0x3D5, 0x3D5, 1, 0x3A6); (0x3D6, 0x3D6, 1, 0x3A0); (0x3D7, 0x3D7, 1, 0x3CF);
    (0x3D9, 0x3EF, 2, 0x3D8); (0x3F0, 0x3F0, 1, 0x39A); (0x3F1, 0x3F1, 1, 0x3A1);
    (0x3F2, 0x3F2, 1, 0x3F9); (0x3F3, 0x3F3, 1, 0x37F); (0x3F5, 0x3F5, 1, 0x395);
    (0x3F8, 0x3F8, 1, 0x3F7); (0x3FB, 0x3FB, 1, 0x3FA); (0x430, 0x44F, 1, 0x410);
    (0x450, 0x45F, 1, 0x400); (0x461, 0x481, 2, 0x460); (0x48B, 0x4BF, 2, 0x48A);
    (0x4C2, 0x4CE, 2, 0x4C1); (0x4CF, 0x4CF, 1, 0x4C0); (0x4D1, 0x52F, 2, 0x4D0);
    (0x561, 0x586, 1, 0x531); (0x13F8, 0x13FD, 1, 0x13F0); (0x1C80, 0x1C80, 1, 0x412);
    (0x1C81, 0x1C81, 1, 0x414); (0x1C82, 0x1C82, 1, 0x41E); (0x1C83, 0x1C84, 1, 0x421);
    (0x1C85, 0x1C85, 1, 0x422); (0x1C86, 0x1C86, 1, 0x42A); (0x1C87, 0x1C87, 1, 0x462);
    (0x1C88, 0x1C88, 1, 0xA64A); (0x1D79, 0x1D79, 1, 0xA77D); (0x1D7D, 0x1D7D, 1, 0x2C63);
    (0x1D8E, 0x1D8E, 1, 0xA7C6); (0x1E01, 0x1E95, 2, 0x1E00); (0x1E9B, 0x1E9B, 1, 0x1E60);
    (0x1EA1, 0x1EFF, 2, 0x1EA0); (0x1F00, 0x1F07, 1, 0x1F08); (0x1F10, 0x1F15, 1, 0x1F18);
    (0x1F20, 0x1F27, 1, 0x1F28); (0x1F30, 0x1F37, 1, 0x1F38); (0x1F40, 0x1F45, 1, 0x1F48);
    (0x1F51, 0x1F57, 2, 0x1F59); (0x1F60, 0x1F67, 1, 0x1F68); (0x1F70, 0x1F71, 1, 0x1FBA);
    (0x1F72, 0x1F75, 1, 0x1FC8); (0x1F76, 0x1F77, 1, 0x1FDA); (0x1F78, 0x1F79, 1, 0x1FF8);
    (0x1F7A, 0x1F7B, 1, 0x1FEA); (0x1F7C, 0x1F7D, 1, 0x1FFA); (0x1F80, 0x1F87, 1, 0x1F88);
    (0x1F90, 0x1F97, 1, 0x1F98); (0x1FA0, 0x1FA7, 1, 0x1FA8); (0x1FB0, 0x1FB1, 1, 0x1FB8);
    (0x1FB3, 0x1FB3, 1, 0x1FBC); (0x1FBE, 0x1FBE, 1, 0x399); (0x1FC3, 0x1FC3, 1, 0x1FCC);
    (0x1FD0, 0x1FD1, 1, 0x1FD8); (0x1FE0, 0x1FE1, 1, 0x1FE8); (0x1FE5, 0x1FE5, 1, 0x1FEC);
    (0x1FF3, 0x1FF3, 1, 0x1FFC); (0x214E, 0x214E, 1, 0x2132); (0x2170, 0x217F, 1, 0x2160);
    (0x2184, 0x2184, 1, 0x2183); (0x24D0, 0x24E9, 1, 0x24B6); (0x2C30, 0x2C5F, 1, 0x2C00);
    (0x2C61, 0x2C61, 1, 0x2C60); (0x2C65, 0x2C65, 1, 0x23A); (0x2C66, 0x2C66, 1, 0x23E);
    (0x2C68, 0x2C6C, 2, 0x2C67); (0x2C73, 0x2C73, 1, 0x2C72); (0x2C76, 0x2C76, 1, 0x2C75);
    (0x2C81, 0x2CE3, 2, 0x2C80); (0x2CEC, 0x2CEE, 2, 0x2CEB); (0x2CF3, 0x2CF3, 1, 0x2CF2);
    (0x2D00, 0x2D25, 1, 0x10A0); (0x2D27, 0x2D27, 1, 0x10C7); (0x2D2D, 0x2D2D, 1, 0x10CD);
    (0xA641, 0xA66D, 2, 0xA640); (0xA681, 0xA69B, 2, 0xA680); (0xA723, 0xA72F, 2, 0xA722);
    (0xA733, 0xA76F, 2, 0xA732); (0xA77A, 0xA77C, 2, 0xA779); (0xA77F, 0xA787, 2, 0xA77E);
    (0xA78C, 0xA78C, 1, 0xA78B); (0xA791, 0xA793, 2, 0xA790); (0xA794, 0xA794, 1, 0xA7C4);
    (0xA797, 0xA7A9, 2, 0xA796); (0xA7B5, 0xA7C3, 2, 0xA7B4); (0xA7C8, 0xA7CA, 2, 0xA7C7);
    (0xA7D1, 0xA7D1, 1, 0xA7D0); (0xA7D7, 0xA7D9, 2, 0xA7D6); (0xA7F6, 0xA7F6, 1, 0xA7F5);
    (0xAB53, 0xAB53, 1, 0xA7B3); (0xAB70, 0xABBF, 1, 0x13A0); (0xFF41, 0xFF5A, 1, 0xFF21);
    (0x10428, 0x1044F, 1, 0x10400); (0x104D8, 0x104FB, 1, 0x104B0); (0x10597, 0x105BB, 2, 0x10570);
    (0x10598, 0x105A0, 2, 0x10571); (0x105A4, 0x105B0, 2, 0x1057D); (0x105B4, 0x105B8, 2, 0x1058D);
    (0x105BC, 0x105BC, 1, 0x10595); (0x10CC0, 0x10CF2, 1, 0x10C80); (0x118C0, 0x118DF, 1, 0x118A0);
    (0x16E60, 0x16E7F, 1, 0x16E40); (0x1E922, 0x1E943, 1, 0x1E900) ]%N.

(** Title-case mappings to more than one code point. *)
Definition title_special : list (N * list N) :=
  [ (0xDF, [0x53; 0x73]); (0x149, [0x2BC; 0x4E]); (0x1F0, [0x4A; 0x30C]);
    (0x390, [0x399; 0x308; 0x301]); (0x3B0, [0x3A5; 0x308; 0x301]); (0x587, [0x535; 0x582]);
    (0x1E96, [0x48; 0x331]); (0x1E97, [0x54; 0x308]); (0x1E98, [0x57; 0x30A]);
    (0x1E99, [0x59; 0x30A]); (0x1E9A, [0x41; 0x2BE]); (0x1F50, [0x3A5; 0x313]);
    (0x1F52, [0x3A5; 0x313; 0x300]); (0x1F54, [0x3A5; 0x313; 0x301]); (0x1F56, [0x3A5; 0x313; 0x342]);
    (0x1FB2, [0x1FBA; 0x345]); (0x1FB4, [0x386; 0x345]); (0x1FB6, [0x391; 0x342]);
    (0x1FB7, [0x391; 0x342; 0x345]); (0x1FC2, [0x1FCA; 0x345]); (0x1FC4, [0x389; 0x345]);
    (0x1FC6, [0x397; 0x342]); (0x1FC7, [0x397; 0x342; 0x345]); (0x1FD2, [0x399; 0x308; 0x300]);
    (0x1FD3, [0x399; 0x308; 0x301]); (0x1FD6, [0x399; 0x342]); (0x1FD7, [0x399; 0x308; 0x342]);
    (0x1FE2, [0x3A5; 0x308; 0x300]); (0x1FE3, [0x3A5; 0x308; 0x301]); (0x1FE4, [0x3A1; 0x313]);
    (0x1FE6, [0x3A5; 0x342]); (0x1FE7, [0x3A5; 0x308; 0x342]); (0x1FF2, [0x1FFA; 0x345]);
    (0x1FF4, [0x38F; 0x345]); (0x1FF6, [0x3A9; 0x342]); (0x1FF7, [0x3A9; 0x342; 0x345]);
    (0xFB00, [0x46; 0x66]); (0xFB01, [0x46; 0x69]); (0xFB02, [0x46; 0x6C]);
    (0xFB03, [0x46; 0x66; 0x69]); (0xFB04, [0x46; 0x66; 0x6C]); (0xFB05, [0x53; 0x74]);
    (0xFB06, [0x53; 0x74]); (0xFB13, [0x544; 0x576]); (0xFB14, [0x544; 0x565]);
    (0xFB15, [0x544; 0x56B]); (0xFB16, [0x54E; 0x576]); (0xFB17, [0x544; 0x56D]) ]%N.

(** Simple upper-case mappings. *)
Definition upper_shifts : list shift :=
  [ (0x61, 0x7A, 1, 0x41); (0xB5, 0xB5, 1, 0x39C); (0xE0, 0xF6, 1, 0xC0);
    (0xF8, 0xFE, 1, 0xD8); (0xFF, 0xFF, 1, 0x178); (0x101, 0x12F, 2, 0x100);
    (0x131, 0x131, 1, 0x49); (0x133, 0x137, 2, 0x132); (0x13A, 0x148, 2, 0x139);
    (0x14B, 0x177, 2, 0x14A); (0x17A, 0x17E, 2, 0x179); (0x17F, 0x17F, 1, 0x53);
    (0x180, 0x180, 1, 0x243); (0x183, 0x185, 2, 0x182); (0x188, 0x188, 1, 0x187);
    (0x18C, 0x18C, 1, 0x18B); (0x192, 0x192, 1, 0x191); (0x195, 0x195, 1, 0x1F6);
    (0x199, 0x199, 1, 0x198); (0x19A, 0x19A, 1, 0x23D); (0x19E, 0x19E, 1, 0x220);
    (0x1A1, 0x1A5, 2, 0x1A0); (0x1A8, 0x1A8, 1, 0x1A7); (0x1AD, 0x1AD, 1, 0x1AC);
    (0x1B0, 0x1B0, 1, 0x1AF); (0x1B4, 0x1B6, 2, 0x1B3); (0x1B9, 0x1B9, 1, 0x1B8);
    (0x1BD, 0x1BD, 1, 0x1BC); (0x1BF, 0x1BF, 1, 0x1F7); (0x1C5, 0x1C5, 1, 0x1C4);
    (0x1C6, 0x1C6, 1, 0x1C4); (0x1C8, 0x1C8, 1, 0x1C7); (0x1C9, 0x1C9, 1, 0x1C7);
    (0x1CB, 0x1CB, 1, 0x1CA); (0x1CC, 0x1CC, 1, 0x1CA); (0x1CE, 0x1DC, 2, 0x1CD);
    (0x1DD, 0x1DD, 1, 0x18E); (0x1DF, 0x1EF, 2, 0x1DE); (0x1F2, 0x1F2, 1, 0x1F1);
    (0x1F3, 0x1F3, 1, 0x1F1); (0x1F5, 0x1F5, 1, 0x1F4); (0x1F9, 0x21F, 2, 0x1F8);
    (0x223, 0x233, 2, 0x222); (0x23C, 0x23C, 1, 0x23B); (0x23F, 0x240, 1, 0x2C7E);
    (0x242, 0x242, 1, 0x241); (0x247, 0x24F, 2, 0x246); (0x250, 0x250, 1, 0x2C6F);
    (0x251, 0x251, 1, 0x2C6D); (0x252, 0x252, 1, 0x2C70); (0x253, 0x253, 1, 0x181);
    (0x254, 0x254, 1, 0x186); (0x256, 0x257, 1, 0x189); (0x259, 0x259, 1, 0x18F);
    (0x25B, 0x25B, 1, 0x190); (0x25C, 0x25C, 1, 0xA7AB); (0x260, 0x260, 1, 0x193);
    (0x261, 0x261, 1, 0xA7AC); (0x263, 0x263, 1, 0x194); (0x265, 0x265, 1, 0xA78D);
    (0x266, 0x266, 1, 0xA7AA); (0x268, 0x268, 1, 0x197); (0x269, 0x269, 1, 0x196);
    (0x26A, 0x26A, 1, 0xA7AE); (0x26B, 0x26B, 1, 0x2C62); (0x26C, 0x26C, 1, 0xA7AD);
    (0x26F, 0x26F, 1, 0x19C); (0x271, 0x271, 1, 0x2C6E); (0x272, 0x272, 1, 0x19D);
    (0x275, 0x275, 1, 0x19F); (0x27D, 0x27D, 1, 0x2C64); (0x280, 0x280, 1, 0x1A6);
    (0x282, 0x282, 1, 0xA7C5); (0x283, 0x283, 1, 0x1A9); (0x287, 0x287, 1, 0xA7B1);
    (0x288, 0x288, 1, 0x1AE); (0x289, 0x289, 1, 0x244); (0x28A, 0x28B, 1, 0x1B1);
    (0x28C, 0x28C, 1, 0x245); (0x292, 0x292, 1, 0x1B7); (0x29D, 0x29D, 1, 0xA7B2);
    (0x29E, 0x29E, 1, 0xA7B0); (0x345, 0x345, 1, 0x399); (0x371, 0x373, 2, 0x370);
    (0x377, 0x377, 1, 0x376); (0x37B, 0x37D, 1, 0x3FD); (0x3AC, 0x3AC, 1, 0x386);
    (0x3AD, 0x3AF, 1, 0x388); (0x3B1, 0x3C1, 1, 0x391); (0x3C2, 0x3C2, 1, 0x3A3);
    (0x3C3, 0x3CB, 1, 0x3A3); (0x3CC, 0x3CC, 1, 0x38C); (0x3CD, 0x3CE, 1, 0x38E);
    (0x3D0, 0x3D0, 1, 0x392); (0x3D1, 0x3D1, 1, 0x398); (0x3D5, 0x3D5, 1, 0x3A6);
    (0x3D6, 0x3D6, 1, 0x3A0); (0x3D7, 0x3D7, 1, 0x3CF); (0x3D9, 0x3EF, 2, 0x3D8);
    (0x3F0, 0x3F0, 1, 0x39A); (0x3F1, 0x3F1, 1, 0x3A1); (0x3F2, 0x3F2, 1, 0x3F9);
    (0x3F3, 0x3F3, 1, 0x37F); (0x3F5, 0x3F5, 1, 0x395); (0x3F8, 0x3F8, 1, 0x3F7);
    (0x3FB, 0x3FB, 1, 0x3FA); (0x430, 0x44F, 1, 0x410); (0x450, 0x45F, 1, 0x400);
    (0x461, 0x481, 2, 0x460); (0x48B, 0x4BF, 2, 0x48A); (0x4C2, 0x4CE, 2, 0x4C1);
    (0x4CF, 0x4CF, 1, 0x4C0); (0x4D1, 0x52F, 2, 0x4D0); (0x561, 0x586, 1, 0x531);
    (0x10D0, 0x10FA, 1, 0x1C90); (0x10FD, 0x10FF, 1, 0x1CBD); (0x13F8, 0x13FD, 1, 0x13F0);
    (0x1C80, 0x1C80, 1, 0x412); (0x1C81, 0x1C81, 1, 0x414); (0x1C82, 0x1C82, 1, 0x41E);
    (0x1C83, 0x1C84, 1, 0x421); (0x1C85, 0x1C85, 1, 0x422); (0x1C86, 0x1C86, 1, 0x42A);
    (0x1C87, 0x1C87, 1, 0x462); (0x1C88, 0x1C88, 1, 0xA64A); (0x1D79, 0x1D79, 1, 0xA77D);
    (0x1D7D, 0x1D7D, 1, 0x2C63); (0x1D8E, 0x1D8E, 1, 0xA7C6); (0x1E01, 0x1E95, 2, 0x1E00);
    (0x1E9B, 0x1E9B, 1, 0x1E60); (0x1EA1, 0x1EFF, 2, 0x1EA0); (0x1F00, 0x1F07, 1, 0x1F08);
    (0x1F10, 0x1F15, 1, 0x1F18); (0x1F20, 0x1F27, 1, 0x1F28); (0x1F30, 0x1F37, 1, 0x1F38);
    (0x1F40, 0x1F45, 1, 0x1F48); (0x1F51, 0x1F57, 2, 0x1F59); (0x1F60, 0x1F67, 1, 0x1F68);
    (0x1F70, 0x1F71, 1, 0x1FBA); (0x1F72, 0x1F75, 1, 0x1FC8); (0x1F76, 0x1F77, 1, 0x1FDA);
    (0x1F78, 0x1F79, 1, 0x1FF8); (0x1F7A, 0x1F7B, 1, 0x1FEA); (0x1F7C, 0x1F7D, 1, 0x1FFA);
    (0x1FB0, 0x1FB1, 1, 0x1FB8); (0x1FBE, 0x1FBE, 1, 0x399); (0x1FD0, 0x1FD1, 1, 0x1FD8);
    (0x1FE0, 0x1FE1, 1, 0x1FE8); (0x1FE5, 0x1FE5, 1, 0x1FEC); (0x214E, 0x214E, 1, 0x2132);
    (0x2170, 0x217F, 1, 0x2160); (0x2184, 0x2184, 1, 0x2183); (0x24D0, 0x24E9, 1, 0x24B6);
    (0x2C30, 0x2C5F, 1, 0x2C00); (0x2C61, 0x2C61, 1, 0x2C60); (0x2C65, 0x2C65, 1, 0x23A);
    (0x2C66, 0x2C66, 1, 0x23E); (0x2C68, 0x2C6C, 2, 0x2C67); (0x2C73, 0x2C73, 1, 0x2C72);
    (0x2C76, 0x2C76, 1, 0x2C75); (0x2C81, 0x2CE3, 2, 0x2C80); (0x2CEC, 0x2CEE, 2, 0x2CEB);
    (0x2CF3, 0x2CF3, 1, 0x2CF2); (0x2D00, 0x2D25, 1, 0x10A0); (0x2D27, 0x2D27, 1, 0x10C7);
    (0x2D2D, 0x2D2D, 1, 0x10CD); (0xA641, 0xA66D, 2, 0xA640); (0xA681, 0xA69B, 2, 0xA680);
    (0xA723, 0xA72F, 2, 0xA722); (0xA733, 0xA76F, 2, 0xA732); (0xA77A, 0xA77C, 2, 0xA779);
    (0xA77F, 0xA787, 2, 0xA77E); (0xA78C, 0xA78C, 1, 0xA78B); (0xA791, 0xA793, 2, 0xA790);
    (0xA794, 0xA794, 1, 0xA7C4); (0xA797, 0xA7A9, 2, 0xA796); (0xA7B5, 0xA7C3, 2, 0xA7B4);
    (0xA7C8, 0xA7CA, 2, 0xA7C7); (0xA7D1, 0xA7D1, 1, 0xA7D0); (0xA7D7, 0xA7D9, 2, 0xA7D6);
    (0xA7F6, 0xA7F6, 1, 0xA7F5); (0xAB53, 0xAB53, 1, 0xA7B3); (0xAB70, 0xABBF, 1, 0x13A0);
    (0xFF41, 0xFF5A, 1, 0xFF21); (0x10428, 0x1044F, 1, 0x10400); (0x104D8, 0x104FB, 1, 0x104B0);
    (0x10597, 0x105BB, 2, 0x10570); (0x10598, 0x105A0, 2, 0x10571); (0x105A4, 0x105B0, 2, 0x1057D);
    (0x105B4, 0x105B8, 2, 0x1058D); (0x105BC, 0x105BC, 1, 0x10595); (0x10CC0, 0x10CF2, 1, 0x10C80);
    (0x118C0, 0x118DF, 1, 0x118A0); (0x16E60, 0x16E7F, 1, 0x16E40); (0x1E922, 0x1E943, 1, 0x1E900) ]%N.

(** Upper-case mappings to more than one code point. *)
Definition upper_special : list (N * list N) :=
  [ (0xDF, [0x53; 0x53]); (0x149, [0x2BC; 0x4E]); (0x1F0, [0x4A; 0x30C]);
    (0x390, [0x399; 0x308; 0x301]); (0x3B0, [0x3A5; 0x308; 0x301]); (0x587, [0x535; 0x552]);
    (0x1E96, [0x48; 0x331]); (0x1E97, [0x54; 0x308]); (0x1E98, [0x57; 0x30A]);
    (0x1E99, [0x59; 0x30A]); (0x1E9A, [0x41; 0x2BE]); (0x1F50, [0x3A5; 0x313]);
    (0x1F52, [0x3A5; 0x313; 0x300]); (0x1F54, [0x3A5; 0x313; 0x301]); (0x1F56, [0x3A5; 0x313; 0x342]);
    (0x1F80, [0x1F08; 0x399]); (0x1F81, [0x1F09; 0x399]); (0x1F82, [0x1F0A; 0x399]);
    (0x1F83, [0x1F0B; 0x399]); (0x1F84, [0x1F0C; 0x399]); (0x1F85, [0x1F0D; 0x399]);
    (0x1F86, [0x1F0E; 0x399]); (0x1F87, [0x1F0F; 0x399]); (0x1F88, [0x1F08; 0x399]);
    (0x1F89, [0x1F09; 0x399]); (0x1F8A, [0x1F0A; 0x399]); (0x1F8B, [0x1F0B; 0x399]);
    (0x1F8C, [0x1F0C; 0x399]); (0x1F8D, [0x1F0D; 0x399]); (0x1F8E, [0x1F0E; 0x399]);
    (0x1F8F, [0x1F0F; 0x399]); (0x1F90, [0x1F28; 0x399]); (0x1F91, [0x1F29; 0x399]);
    (0x1F92, [0x1F2A; 0x399]); (0x1F93, [0x1F2B; 0x399]); (0x1F94, [0x1F2C; 0x399]);
    (0x1F95, [0x1F2D; 0x399]); (0x1F96, [0x1F2E; 0x399]); (0x1F97, [0x1F2F; 0x399]);
    (0x1F98, [0x1F28; 0x399]); (0x1F99, [0x1F29; 0x399]); (0x1F9A, [0x1F2A; 0x399]);
    (0x1F9B, [0x1F2B; 0x399]); (0x1F9C, [0x1F2C; 0x399]); (0x1F9D, [0x1F2D; 0x399]);
    (0x1F9E, [0x1F2E; 0x399]); (0x1F9F, [0x1F2F; 0x399]); (0x1FA0, [0x1F68; 0x399]);
    (0x1FA1, [0x1F69; 0x399]); (0x1FA2, [0x1F6A; 0x399]); (0x1FA3, [0x1F6B; 0x399]);
    (0x1FA4, [0x1F6C; 0x399]); (0x1FA5, [0x1F6D; 0x399]); (0x1FA6, [0x1F6E; 0x399]);
    (0x1FA7, [0x1F6F; 0x399]); (0x1FA8, [0x1F68; 0x399]); (0x1FA9, [0x1F69; 0x399]);
    (0x1FAA, [0x1F6A; 0x399]); (0x1FAB, [0x1F6B; 0x399]); (0x1FAC, [0x1F6C; 0x399]);
    (0x1FAD, [0x1F6D; 0x399]); (0x1FAE, [0x1F6E; 0x399]); (0x1FAF, [0x1F6F; 0x399]);
    (0x1FB2, [0x1FBA; 0x399]); (0x1FB3, [0x391; 0x399]); (0x1FB4, [0x386; 0x399]);
    (0x1FB6, [0x391; 0x342]); (0x1FB7, [0x391; 0x342; 0x399]); (0x1FBC, [0x391; 0x399]);
    (0x1FC2, [0x1FCA; 0x399]); (0x1FC3, [0x397; 0x399]); (0x1FC4, [0x389; 0x399]);
    (0x1FC6, [0x397; 0x342]); (0x1FC7, [0x397; 0x342; 0x399]); (0x1FCC, [0x397; 0x399]);
    (0x1FD2, [0x399; 0x308; 0x300]); (0x1FD3, [0x399; 0x308; 0x301]); (0x1FD6, [0x399; 0x342]);
    (0x1FD7, [0x399; 0x308; 0x342]); (0x1FE2, [0x3A5; 0x308; 0x300]); (0x1FE3, [0x3A5; 0x308; 0x301]);
    (0x1FE4, [0x3A1; 0x313]); (0x1FE6, [0x3A5; 0x342]); (0x1FE7, [0x3A5; 0x308; 0x342]);
    (0x1FF2, [0x1FFA; 0x399]); (0x1FF3, [0x3A9; 0x399]); (0x1FF4, [0x38F; 0x399]);
    (0x1FF6, [0x3A9; 0x342]); (0x1FF7, [0x3A9; 0x342; 0x399]); (0x1FFC, [0x3A9; 0x399]);
    (0xFB00, [0x46; 0x46]); (0xFB01, [0x46; 0x49]); (0xFB02, [0x46; 0x4C]);
    (0xFB03, [0x46; 0x46; 0x49]); (0xFB04, [0x46; 0x46; 0x4C]); (0xFB05, [0x53; 0x54]);
    (0xFB06, [0x53; 0x54]); (0xFB13, [0x544; 0x546]); (0xFB14, [0x544; 0x535]);
    (0xFB15, [0x544; 0x53B]); (0xFB16, [0x54E; 0x546]); (0xFB17, [0x544; 0x53D]) ]%N.

Definition in_ranges (rs : list (N * N)) (c : codepoint) : bool :=
  existsb (fun r => (fst r <=? c) && (c <=? snd r)) rs.

Definition shift_hits (c : codepoint) (e : shift) : bool :=
  let '(lo, hi, step, _) := e in
  (lo <=? c) && (c <=? hi) && ((c - lo) mod step =? 0).

Definition shift_lookup (tbl : list shift) (c : codepoint) : option codepoint :=
  match find (shift_hits c) tbl with
  | Some (lo, _, _, img) => Some (img + (c - lo))
  | None => None
  end.

Fixpoint assoc {A : Type} (c : codepoint) (l : list (N * A)) : option A :=
  match l with
  | [] => None
  | (k, v) :: l' => if k =? c then Some v else assoc c l'
  end.

(** A full case mapping: the special (multi-character) table first, then the
    simple mappings; a code point in neither maps to itself. *)
Definition full_mapping (special : list (N * list N)) (tbl : list shift)
    (c : codepoint) : list codepoint :=
  match assoc c special with
  | Some l => l
  | None => match shift_lookup tbl c with
            | Some d => [d]
            | None => [c]
            end
  end.

Definition isspace (c : codepoint) : bool := in_ranges whitespace_ranges c.
Definition is_cased (c : codepoint) : bool := in_ranges cased_ranges c.
Definition is_case_ignorable (c : codepoint) : bool := in_ranges case_ignorable_ranges c.
Definition to_lower_full : codepoint -> list codepoint := full_mapping lower_special lower_shifts.
Definition to_title_full : codepoint -> list codepoint := full_mapping title_special title_shifts.
Definition to_upper_full : codepoint -> list codepoint := full_mapping upper_special upper_shifts.

End Unicode.

(** ** The [str] methods used by the server *)

Fixpoint lstrip (s : str) : str :=
  match s with
  | c :: r => if Unicode.isspace c then lstrip r else s
  | [] => []
  end.

Definition rstrip (s : str) : str := rev (lstrip (rev s)).

(** [s.strip()]: whitespace is dropped from the left, then from the right. *)
Definition strip (s : str) : str := rstrip (lstrip s).

Fixpoint skip_case_ignorable (s : str) : str :=
  match s with
  | c :: r => if Unicode.is_case_ignorable c then skip_case_ignorable r else s
  | [] => []
  end.

(** The Final_Sigma context of a capital sigma preceded by [before_rev] (nearest
    code point first) and followed by [after]: a cased letter before it and no
    cased letter after it, case-ignorable code points skipped on both sides. *)
Definition final_sigma (before_rev after : str) : bool :=
  match skip_case_ignorable before_rev with
  | c :: _ =>
      Unicode.is_cased c &&
      match skip_case_ignorable after with
      | d :: _ => negb (Unicode.is_cased d)
      | [] => true
      end
  | [] => false
  end.

Definition capital_sigma : codepoint := 0x3A3.

(** Lower-casing of one code point in its context. *)
Definition lower_ucs4 (before_rev : str) (c : codepoint) (after : str) : list codepoint :=
  if c =? capital_sigma
  then [if final_sigma before_rev after then 0x3C2 else 0x3C3]
  else Unicode.to_lower_full c.

Fixpoint do_lower (before_rev s : str) : str :=
  match s with
  | [] => []
  | c :: r => lower_ucs4 before_rev c r ++ do_lower (c :: before_rev) r
  end.

(** [s.lower()] *)
Definition lower (s : str) : str := do_lower [] s.

(** [s.title()]: a code point that follows a cased one is lower-cased, any
    other is title-cased. *)
Fixpoint do_title (previous_is_cased : bool) (before_rev s : str) : str :=
  match s with
  | [] => []
  | c :: r =>
      (if previous_is_cased then lower_ucs4 before_rev c r else Unicode.to_title_full c)
        ++ do_title (Unicode.is_cased c) (c :: before_rev) r
  end.

Definition title (s : str) : str := do_title false [] s.

(** [s.upper()] *)
Definition upper (s : str) : str := flat_map Unicode.to_upper_full s.

(** ** Dictionaries with string keys, in insertion order *)

Definition dict := list (str * str).

Fixpoint dict_get (d : dict) (k : str) : option str :=
  match d with
  | [] => None
  | (k', v) :: d' => if str_eqb k k' then Some v else dict_get d' k
  end.

(** [k in d] *)
Definition dict_contains (d : dict) (k : str) : bool :=
  match dict_get d k with Some _ => true | None => false end.

(** [d.keys()] *)
Definition dict_keys (d : dict) : list str := map fst d.

(** ** Exceptions and the system clock *)

Inductive exn : Type :=
| KeyError (key : str)
| UnknownTimeZoneError (zone : str)
| TypeError (message : str).

Inductive outcome (A : Type) : Type :=
| Return (a : A)
| Raise (e : exn).

Arguments Return {A} a.
Arguments Raise {A} e.

(** A computation started after [n] clock reads yields an outcome and the
    number of clock reads made when it ends. *)
Definition Py (A : Type) : Type := nat -> outcome A * nat.

Definition ret {A : Type} (a : A) : Py A := fun n => (Return a, n).

Definition raise {A : Type} (e : exn) : Py A := fun n => (Raise e, n).

Definition bind {A B : Type} (m : Py A) (f : A -> Py B) : Py B :=
  fun n =>
    match m n with
    | (Return a, n') => f a n'
    | (Raise e, n') => (Raise e, n')
    end.

Notation "x <- m ;; k" := (bind m (fun x => k))
  (at level 61, m at next level, right associativity).

Record datetime : Type := mk_datetime {
  year : N; month : N; day : N; hour : N; minute : N; second : N
}.

(** A time zone object: its name and its conversion of an instant (seconds
    since the epoch) to local civil time. *)
Record tzinfo : Type := mk_tzinfo {
  zone : str;
  fromutc : N -> datetime
}.

(** What the server takes from its surroundings: the [pytz] zone database
    ([pytz.timezone] raises on a name it cannot resolve) and the instants shown
    by the successive reads of the system clock. *)
Record System : Type := mk_System {
  pytz_timezone : str -> outcome tzinfo;
  clock : nat -> N
}.

(** [datetime.now(tz)]: one clock read. *)
Definition datetime_now (sys : System) (tz : tzinfo) : Py datetime :=
  fun n => (Return (fromutc tz (clock sys n)), S n).

(** [d[k]] *)
Definition getitem (d : dict) (k : str) : Py str :=
  fun n =>
    match dict_get d k with
    | Some v => (Return v, n)
    | None => (Raise (KeyError k), n)
    end.

Definition digit (n : N) : codepoint := 0x30 + n mod 10.
Definition two_digits (n : N) : str := [digit (n / 10); digit n].
Definition four_digits (n : N) : str :=
  [digit (n / 1000); digit (n / 100); digit (n / 10); digit n].

(** [dt.strftime("%Y-%m-%d %H:%M")] *)
Definition strftime (dt : datetime) : str :=
  four_digits (year dt) ++ py "-" ++ two_digits (month dt) ++ py "-"
    ++ two_digits (day dt) ++ py " " ++ two_digits (hour dt) ++ py ":"
    ++ two_digits (minute dt).

(** ** The weather server *)

Definition LOCATIONS : dict :=
  [ (py "Seattle", py "America/Los_Angeles");
    (py "New York", py "America/New_York");
    (py "London", py "Europe/London");
    (py "Berlin", py "Europe/Berlin");
    (py "Tokyo", py "Asia/Tokyo");
    (py "Sydney", py "Australia/Sydney") ].

Definition STATIC_WEATHER : dict :=
  [ (py "morning", py "Cool and clear with a light breeze.");
    (py "afternoon", py "Mild temperatures with scattered clouds and good visibility.");
    (py "evening", py "Calm conditions with a gentle breeze and fading light.");
    (py "night", py "Quiet, mostly clear skies and cooler air.") ].

Definition _get_time_bucket (local_dt : datetime) : str :=
  let hour := hour local_dt in
  if (5 <=? hour) && (hour <=? 11) then py "morning"
  else if (12 <=? hour) && (hour <=? 17) then py "afternoon"
  else if (18 <=? hour) && (hour <=? 21) then py "evening"
  else py "night".

(** The loop of [_normalize_location]: the first key whose lower-cased form
    equals [name]. *)
Fixpoint first_matching_key (name : str) (keys : list str) : option str :=
  match keys with
  | [] => None
  | key :: rest =>
      if str_eqb name (lower key) then Some key
      else first_matching_key name rest
  end.

Definition _normalize_location (name : str) : str :=
  let name := lower (strip name) in
  match first_matching_key name (dict_keys LOCATIONS) with
  | Some key => key
  | None => title name
  end.

Definition list_supported_locations : list str := dict_keys LOCATIONS.

Definition unsupported_message : str :=
  py "Unsupported location. Use `list_supported_locations` to see valid options.".

Definition timezone_failure_message : str :=
  py "Sorry, I couldn't resolve the time zone for that location.".

Definition get_weather_at_location (sys : System) (location : str) : Py str :=
  let norm := _normalize_location location in
  if negb (dict_contains LOCATIONS norm) then ret unsupported_message
  else
    tz_name <- getitem LOCATIONS norm ;;
    match pytz_timezone sys tz_name with
    | Raise _ => ret timezone_failure_message
    | Return tz =>
        now_local <- datetime_now sys tz ;;
        let bucket := _get_time_bucket now_local in
        description <- getitem STATIC_WEATHER bucket ;;
        let local_time_str := strftime now_local in
        ret (py "Weather for " ++ norm ++ py " at " ++ local_time_str
               ++ py " (" ++ bucket ++ py "): " ++ description)
    end.

(** What the decorator [@mcp.tool()] leaves bound to the name of the function
    it decorates. fastmcp is not part of the repository and the two lines of
    its releases differ: before 2.7 the decorator returns the function itself,
    from 2.7 on it returns a [FunctionTool] object, which cannot be called
    (the server invokes the function kept inside it). *)
Inductive tool_binding : Type :=
| PlainFunction
| FunctionTool.

Definition not_callable_message : str := py "'FunctionTool' object is not callable".

(** A call, from the module's own code, of a name that [@mcp.tool()]
    decorates; [fn] is the function as written. *)
Definition call_tool {A B : Type} (binding : tool_binding) (fn : A -> Py B) (a : A)
    : Py B :=
  match binding with
  | PlainFunction => fn a
  | FunctionTool => raise (TypeError not_callable_message)
  end.

(** The loop of [get_weather_for_multiple_locations]; [results] is the list
    appended to so far. The loop calls [get_weather_at_location] by its
    module-level name, which is a decorated one. *)
Fixpoint for_each_location (binding : tool_binding) (sys : System)
    (locations results : list str) : Py (list str) :=
  match locations with
  | [] => ret results
  | loc :: rest =>
      r <- call_tool binding (get_weather_at_location sys) loc ;;
      for_each_location binding sys rest (results ++ [r])
  end.

Definition get_weather_for_multiple_locations (binding : tool_binding) (sys : System)
    (locations : list str) : Py (list str) :=
  for_each_location binding sys locations [].

(** ** Notions the statements use *)

Definition leading_whitespace (s : str) : bool :=
  match s with
  | c :: _ => Unicode.isspace c
  | [] => false
  end.

Definition trailing_whitespace (s : str) : bool := leading_whitespace (rev s).

Definition all_whitespace (s : str) : bool := forallb Unicode.isspace s.

Definition is_ascii (s : str) : bool := forallb (fun c => c <? 128) s.

(** The line boundaries of [str.splitlines]. *)
Definition is_linebreak (c : codepoint) : bool :=
  existsb (N.eqb c) [0x0A; 0x0B; 0x0C; 0x0D; 0x1C; 0x1D; 0x1E; 0x85; 0x2028; 0x2029].

Definition single_line (s : str) : bool := forallb (fun c => negb (is_linebreak c)) s.

(** The input matches a canonical location: trimmed and lower-cased it equals
    a lower-cased key of the location table. *)
Definition matches_canonical (s : str) : Prop :=
  exists key, In key (dict_keys LOCATIONS) /\ lower (strip s) = lower key.

(** Every zone name of the location table resolves. *)
Definition zones_resolve (sys : System) : Prop :=
  forall key tz_name, dict_get LOCATIONS key = Some tz_name ->
    exists tz, pytz_timezone sys tz_name = Return tz.

(** The number of clock reads after the calls for [locations], started after
    [n] reads. *)
Fixpoint reads_after (sys : System) (locations : list str) (n : nat) : nat :=
  match locations with
  | [] => n
  | loc :: rest => reads_after sys rest (snd (get_weather_at_location sys loc n))
  end.

(** What a clock showing date, hour and minute displays. *)
Definition minute_view (dt : datetime) : N * N * N * N * N :=
  (year dt, month dt, day dt, hour dt, minute dt).

(** The local time the [n]-th clock read shows in the zone named [tz_name],
    when that zone resolves. *)
Definition local_minute (sys : System) (tz_name : str) (n : nat) : option (N * N * N * N * N) :=
  match pytz_timezone sys tz_name with
  | Return tz => Some (minute_view (fromutc tz (clock sys n)))
  | Raise _ => None
  end.

(** ** A sample system

    Zones at a fixed offset from UTC (the offsets in force in November 2026)
    and a clock that advances by twenty seconds between reads. *)

(** Civil date of a day number counted from 1970-01-01. *)
Definition civil_from_days (days : N) : N * N * N :=
  let z := days + 719468 in
  let era := z / 146097 in
  let doe := z - era * 146097 in
  let yoe := (doe - doe / 1460 + doe / 36524 - doe / 146096) / 365 in
  let doy := doe - (365 * yoe + yoe / 4 - yoe / 100) in
  let mp := (5 * doy + 2) / 153 in
  let d := doy - (153 * mp + 2) / 5 + 1 in
  let m := if mp <? 10 then mp + 3 else mp - 9 in
  let y := yoe + era * 400 + (if m <=? 2 then 1 else 0) in
  (y, m, d).

(** A zone [east] seconds ahead of and [west] seconds behind UTC. *)
Definition fixed_offset (name : str) (east west : N) : tzinfo :=
  {| zone := name;
     fromutc := fun t =>
       let local := t + east - west in
       let '(y, m, d) := civil_from_days (local / 86400) in
       mk_datetime y m d ((local / 3600) mod 24) ((local / 60) mod 60) (local mod 60) |}.

Definition sample_zones : list (str * (N * N)) :=
  [ (py "America/Los_Angeles", (0, 28800));
    (py "America/New_York", (0, 18000));
    (py "Europe/London", (0, 0));
    (py "Europe/Berlin", (3600, 0));
    (py "Asia/Tokyo", (32400, 0));
    (py "Australia/Sydney", (39600, 0)) ].

Fixpoint sample_timezone (zones : list (str * (N * N))) (name : str) : outcome tzinfo :=
  match zones with
  | [] => Raise (UnknownTimeZoneError name)
  | (z, (east, west)) :: rest =>
      if str_eqb name z then Return (fixed_offset z east west)
      else sample_timezone rest name
  end.

Definition sample_system : System :=
  {| pytz_timezone := sample_timezone sample_zones;
     clock := fun n => 1793724780 + 20 * N.of_nat n |}.

(** A system whose zone database resolves nothing. *)
Definition empty_zone_system : System :=
  {| pytz_timezone := fun name => Raise (UnknownTimeZoneError name);
     clock := fun n => 1793724780 + 20 * N.of_nat n |}.

(** "seattle" written with a long s (U+017F) for its first letter. *)
Definition long_s_seattle : str := 0x17F :: py "eattle".

(** "Istanbul" written with a capital dotted I (U+0130). *)
Definition dotted_istanbul : str := 0x130 :: py "stanbul".

(** ** Notions the proofs use *)

(** The last code point of [s] is whitespace. *)
Fixpoint ends_with_space (s : str) : bool :=
  match s with
  | [] => false
  | [c] => Unicode.isspace c
  | _ :: r => ends_with_space r
  end.

Definition space_free (s : str) : bool := forallb (fun c => negb (Unicode.isspace c)) s.

(** A case mapping of one code point that cannot create or expose whitespace:
    it yields at least one code point, and no whitespace unless the code point
    mapped is whitespace itself. *)
Definition keeps_edges (c : codepoint) (e : str) : Prop :=
  e <> [] /\ (Unicode.isspace c = false -> space_free e = true).

(** [out] is [s] with every code point replaced by such a mapping. *)
Inductive expands : str -> str -> Prop :=
| expands_nil : expands [] []
| expands_cons (c : codepoint) (r e out : str) :
    keeps_edges c e -> expands r out -> expands (c :: r) (e ++ out).

(** The check that a case table maps nothing to whitespace or to nothing. *)
Definition avoids_whitespace (lo hi : N) : bool :=
  forallb (fun r => (snd r <? lo) || (hi <? fst r)) Unicode.whitespace_ranges.

Definition table_clean (special : list (N * list N)) (tbl : list Unicode.shift) : bool :=
  forallb (fun e => match snd e with [] => false | _ :: _ => space_free (snd e) end) special
  && forallb (fun e => let '(lo, hi, _, img) := e in avoids_whitespace img (img + (hi - lo))) tbl.

(** The case mappings of ASCII. *)
Definition ascii_lower (c : codepoint) : codepoint :=
  if (0x41 <=? c) && (c <=? 0x5A) then c + 32 else c.

Definition ascii_upper (c : codepoint) : codepoint :=
  if (0x61 <=? c) && (c <=? 0x7A) then c - 32 else c.

Definition ascii_alpha (c : codepoint) : bool :=
  ((0x41 <=? c) && (c <=? 0x5A)) || ((0x61 <=? c) && (c <=? 0x7A)).

Fixpoint ascii_title (previous_is_cased : bool) (s : str) : str :=
  match s with
  | [] => []
  | c :: r =>
      (if previous_is_cased then ascii_lower c else ascii_upper c)
        :: ascii_title (ascii_alpha c) r
  end.

(** The code points below 128. *)
Definition ascii_range : list codepoint := map N.of_nat (seq 0 128).

(** ** The local time tool of the agent script

    [get_current_time_local] of
    [src/scenarios/01-hello-world-agent/time-weather-agent.py], with the parts
    of [datetime] it formats with. *)

(** [s.replace(c, '')] for a pattern [c] of one code point: every occurrence
    goes. *)
Definition remove_all (c : codepoint) (s : str) : str :=
  filter (fun x => negb (x =? c)) s.

Definition double_quote : codepoint := 0x22.
Definition line_feed : codepoint := 0x0A.

(** The proleptic Gregorian ordinal of a date, as [datetime] computes it. *)
Definition _is_leap (y : N) : bool :=
  (y mod 4 =? 0) && (negb (y mod 100 =? 0) || (y mod 400 =? 0)).

Definition _days_before_year (y : N) : N :=
  let y := y - 1 in
  y * 365 + y / 4 - y / 100 + y / 400.

(** Index 0 is a placeholder; months count from 1. *)
Definition _DAYS_BEFORE_MONTH : list N :=
  [0; 0; 31; 59; 90; 120; 151; 181; 212; 243; 273; 304; 334].

Definition _days_before_month (y m : N) : N :=
  nth (N.to_nat m) _DAYS_BEFORE_MONTH 0 + (if (2 <? m) && _is_leap y then 1 else 0).

Definition _ymd2ord (y m d : N) : N :=
  _days_before_year y + _days_before_month y m + d.

(** [dt.weekday()]: Monday is 0. *)
Definition weekday (dt : datetime) : N :=
  (_ymd2ord (year dt) (month dt) (day dt) + 6) mod 7.

Definition day_names : list str :=
  [py "Monday"; py "Tuesday"; py "Wednesday"; py "Thursday"; py "Friday";
   py "Saturday"; py "Sunday"].

Definition month_names : list str :=
  [py ""; py "January"; py "February"; py "March"; py "April"; py "May"; py "June";
   py "July"; py "August"; py "September"; py "October"; py "November"; py "December"].

(** The hour of the 12-hour clock ([%I]). *)
Definition hour12 (h : N) : N := if h mod 12 =? 0 then 12 else h mod 12.

(** [%p] *)
Definition am_pm (h : N) : str := if h <? 12 then py "AM" else py "PM".

(** [dt.strftime('%I:%M:%S %p')] *)
Definition strftime_clock12 (dt : datetime) : str :=
  two_digits (hour12 (hour dt)) ++ py ":" ++ two_digits (minute dt) ++ py ":"
    ++ two_digits (second dt) ++ py " " ++ am_pm (hour dt).

(** [dt.strftime('%A, %B %d, %Y')] *)
Definition strftime_long_date (dt : datetime) : str :=
  nth (N.to_nat (weekday dt)) day_names [] ++ py ", "
    ++ nth (N.to_nat (month dt)) month_names [] ++ py " "
    ++ two_digits (day dt) ++ py ", " ++ four_digits (year dt).

(** [exception_text] is [str(e)] for the exception [pytz.timezone] raised. *)
Definition get_current_time_local (sys : System) (exception_text : exn -> str)
    (location : str) : Py str :=
  let location := remove_all line_feed (remove_all double_quote (strip location)) in
  match pytz_timezone sys location with
  | Return timezone =>
      now <- datetime_now sys timezone ;;
      ret (py "The current time in " ++ location ++ py " is " ++ strftime_clock12 now
             ++ py " on " ++ strftime_long_date now)
  | Raise e =>
      ret (py "Sorry, I couldn't find the timezone for '" ++ location
             ++ py "'. Error: " ++ exception_text e)
  end.

(** ** Further notions the statements use *)

(** The ranges of the fields of a [datetime]. *)
Definition datetime_in_range (dt : datetime) : Prop :=
  1 <= year dt <= 9999 /\ 1 <= month dt <= 12 /\ 1 <= day dt <= 31 /\
  hour dt <= 23 /\ minute dt <= 59 /\ second dt <= 59.

(** The numbers below [k]. *)
Definition numbers_below (k : nat) : list N := map N.of_nat (seq 0 k).

(** [str(e)] of the exceptions of the sample zone database: the name, quoted. *)
Definition sample_exception_text (e : exn) : str :=
  match e with
  | KeyError key => py "'" ++ key ++ py "'"
  | UnknownTimeZoneError name => py "'" ++ name ++ py "'"
  | TypeError message => message
  end.

(** "ja" written with a j with caron (U+01F0). *)
Definition caron_ja : str := [0x1F0; 0x61].

(** Two strings differ at a position both have. *)
Fixpoint diverge (a b : str) : bool :=
  match a, b with
  | x :: a', y :: b' => if x =? y then diverge a' b' else true
  | _, _ => false
  end.

(** The names at two different positions among the first [k] of [names]
    diverge; [first] is the first position looked at. *)
Definition names_diverge (first k : nat) (names : list str) : bool :=
  forallb (fun i => forallb (fun j =>
      (i <? N.of_nat first) || (j <? N.of_nat first) || (i =? j)
      || diverge (nth (N.to_nat i) names []) (nth (N.to_nat j) names []))
    (numbers_below k)) (numbers_below k).

(** * Properties *)

(** ** Sample runs *)

Example lower_ex : lower (py "New York") = py "new york".
Proof. vm_compute. reflexivity. Qed.
Example title_ex : title (py "new york o'neil 3d") = py "New York O'Neil 3D".
Proof. vm_compute. reflexivity. Qed.
Example upper_ex : upper (py "New York") = py "NEW YORK".
Proof. vm_compute. reflexivity. Qed.
Example strip_ex : strip (py "  a b  ") = py "a b".
Proof. vm_compute. reflexivity. Qed.
Example title_long_s : title long_s_seattle = py "Seattle".
Proof. vm_compute. reflexivity. Qed.
Example normalize_atlantis : _normalize_location (py " atLANTis ") = py "Atlantis".
Proof. vm_compute. reflexivity. Qed.
Example weather_london :
  get_weather_at_location sample_system (py "london") 0%nat =
  (Return (py "Weather for London at 2026-11-03 16:53 (afternoon): Mild temperatures with scattered clouds and good visibility."), 1%nat).
Proof. vm_compute. reflexivity. Qed.
Example weather_batch :
  fst (get_weather_for_multiple_locations PlainFunction sample_system
         [py "London"; py "Atlantis"; py "Tokyo"] 0%nat) =
  Return [ py "Weather for London at 2026-11-03 16:53 (afternoon): Mild temperatures with scattered clouds and good visibility.";
           unsupported_message;
           py "Weather for Tokyo at 2026-11-04 01:53 (night): Quiet, mostly clear skies and cooler air." ].
Proof. vm_compute. reflexivity. Qed.
Example weather_no_zone :
  get_weather_at_location empty_zone_system (py "Tokyo") 5%nat = (Return timezone_failure_message, 5%nat).
Proof. vm_compute. reflexivity. Qed.
Example weather_new_york :
  fst (get_weather_at_location sample_system (py "  new YORK ") 0%nat) =
  Return (py "Weather for New York at 2026-11-03 11:53 (morning): Cool and clear with a light breeze.").
Proof. vm_compute. reflexivity. Qed.
Example weather_lower_seattle :
  fst (get_weather_at_location sample_system (py "seattle") 0%nat) =
  Return (py "Weather for Seattle at 2026-11-03 08:53 (morning): Cool and clear with a light breeze.").
Proof. vm_compute. reflexivity. Qed.
Example normalize_long_s : _normalize_location long_s_seattle = py "Seattle".
Proof. vm_compute. reflexivity. Qed.
Example weather_long_s :
  fst (get_weather_at_location sample_system long_s_seattle 0%nat) =
  Return (py "Weather for Seattle at 2026-11-03 08:53 (morning): Cool and clear with a light breeze.").
Proof. vm_compute. reflexivity. Qed.
Example normalize_dotted_istanbul :
  _normalize_location dotted_istanbul = 0x49 :: 0x307 :: py "Stanbul" /\
  title (strip dotted_istanbul) = dotted_istanbul.
Proof. vm_compute. split; reflexivity. Qed.
Example local_time_london :
  get_current_time_local sample_system sample_exception_text
    ([0x20; 0x22] ++ py "Europe/London" ++ [0x22; 0x20]) 0%nat =
  (Return (py "The current time in Europe/London is 04:53:00 PM on Tuesday, November 03, 2026"), 1%nat).
Proof. vm_compute. reflexivity. Qed.
Example local_time_unknown :
  get_current_time_local sample_system sample_exception_text (py "Mars/Olympus") 3%nat =
  (Return (py "Sorry, I couldn't find the timezone for 'Mars/Olympus'. Error: 'Mars/Olympus'"), 3%nat).
Proof. vm_compute. reflexivity. Qed.
Example local_time_inner_space :
  fst (get_current_time_local sample_system sample_exception_text
         ([0x22; 0x20] ++ py "Europe/London" ++ [0x22]) 0%nat) =
  Return (py "Sorry, I couldn't find the timezone for ' Europe/London'. Error: ' Europe/London'").
Proof. vm_compute. reflexivity. Qed.
Example clock12_midnight :
  strftime_clock12 (mk_datetime 2026 11 3 0 5 9) = py "12:05:09 AM" /\
  strftime_clock12 (mk_datetime 2026 11 3 12 5 9) = py "12:05:09 PM" /\
  strftime_clock12 (mk_datetime 2026 11 3 13 5 9) = py "01:05:09 PM".
Proof. vm_compute. repeat split. Qed.
Example long_date_leap_day :
  strftime_long_date (mk_datetime 2024 2 29 0 0 0) = py "Thursday, February 29, 2024".
Proof. vm_compute. reflexivity. Qed.
Example normalize_twice_caron :
  _normalize_location caron_ja = [0x4A; 0x30C; 0x61] /\
  _normalize_location (_normalize_location caron_ja) = [0x4A; 0x30C; 0x41].
Proof. vm_compute. split; reflexivity. Qed.
Example weather_batch_tool_object :
  get_weather_for_multiple_locations FunctionTool sample_system
    [py "London"; py "Atlantis"; py "Tokyo"] 0%nat =
  (Raise (TypeError (py "'FunctionTool' object is not callable")), 0%nat).
Proof. vm_compute. reflexivity. Qed.

(** ** Strings and dictionaries *)

Lemma str_eqb_eq (a b : str) : str_eqb a b = true <-> a = b.
Proof.
  revert b. induction a as [|x a IH]; destruct b as [|y b]; simpl;
    try (split; [discriminate | congruence]); try tauto.
  rewrite andb_true_iff, N.eqb_eq, IH. split.
  - intros [-> ->]. reflexivity.
  - intros E. injection E as -> ->. tauto.
Qed.

Lemma str_eqb_refl (a : str) : str_eqb a a = true.
Proof. apply str_eqb_eq. reflexivity. Qed.

Lemma dict_contains_keys (d : dict) (k : str) :
  dict_contains d k = true <-> In k (dict_keys d).
Proof.
  unfold dict_contains, dict_keys.
  induction d as [|[k' v] d IH]; simpl.
  - split; [discriminate | tauto].
  - destruct (str_eqb k k') eqn:E.
    + apply str_eqb_eq in E. subst. tauto.
    + rewrite IH. split; [tauto|]. intros [H|H]; [|exact H].
      subst. rewrite str_eqb_refl in E. discriminate.
Qed.

Lemma dict_get_contains (d : dict) (k : str) :
  dict_contains d k = true -> exists v, dict_get d k = Some v /\ In (k, v) d.
Proof.
  unfold dict_contains.
  induction d as [|[k' v] d IH]; simpl; [discriminate|].
  destruct (str_eqb k k') eqn:E.
  - apply str_eqb_eq in E. subst. intros _. exists v. tauto.
  - intros H. destruct (IH H) as [w [Hw Hin]]. exists w. tauto.
Qed.

(** ** Time buckets *)

Lemma bucket_in_table (dt : datetime) :
  In (_get_time_bucket dt) (dict_keys STATIC_WEATHER).
Proof.
  unfold _get_time_bucket.
  destruct ((5 <=? hour dt) && (hour dt <=? 11)); [simpl; tauto|].
  destruct ((12 <=? hour dt) && (hour dt <=? 17)); [simpl; tauto|].
  destruct ((18 <=? hour dt) && (hour dt <=? 21)); simpl; tauto.
Qed.

Ltac bucket_cases dt :=
  unfold _get_time_bucket;
  destruct (N.leb_spec 5 (hour dt)); destruct (N.leb_spec (hour dt) 11);
  destruct (N.leb_spec 12 (hour dt)); destruct (N.leb_spec (hour dt) 17);
  destruct (N.leb_spec 18 (hour dt)); destruct (N.leb_spec (hour dt) 21);
  simpl; try lia.

(** C1. Every hour of the day 0..23 gets exactly one of the four buckets, and
    it gets it by the ranges morning 5..11, afternoon 12..17, evening 18..21,
    night 22..23 and 0..4; so 4 is night, 5 and 11 are morning, 12 and 17
    afternoon, 18 and 21 evening, 22 night. *)
Theorem time_bucket_ranges (dt : datetime) :
  hour dt <= 23 ->
  let bucket := _get_time_bucket dt in
  NoDup [py "morning"; py "afternoon"; py "evening"; py "night"] /\
  In bucket [py "morning"; py "afternoon"; py "evening"; py "night"] /\
  (bucket = py "morning" <-> 5 <= hour dt <= 11) /\
  (bucket = py "afternoon" <-> 12 <= hour dt <= 17) /\
  (bucket = py "evening" <-> 18 <= hour dt <= 21) /\
  (bucket = py "night" <-> 22 <= hour dt <= 23 \/ hour dt <= 4) /\
  (hour dt = 4 -> bucket = py "night") /\
  (hour dt = 5 -> bucket = py "morning") /\
  (hour dt = 11 -> bucket = py "morning") /\
  (hour dt = 12 -> bucket = py "afternoon") /\
  (hour dt = 17 -> bucket = py "afternoon") /\
  (hour dt = 18 -> bucket = py "evening") /\
  (hour dt = 21 -> bucket = py "evening") /\
  (hour dt = 22 -> bucket = py "night").
Proof.
  intros Hday bucket.
  split.
  { repeat constructor; simpl; intuition discriminate. }
  split.
  { apply (bucket_in_table dt). }
  subst bucket.
  bucket_cases dt;
    repeat split; intros; try lia; try reflexivity; try discriminate.
Qed.

Lemma time_bucket_ranges_witness :
  hour (mk_datetime 2026 11 3 4 0 0) <= 23 /\
  _get_time_bucket (mk_datetime 2026 11 3 4 0 0) = py "night".
Proof.
  assert (H : hour (mk_datetime 2026 11 3 4 0 0) <= 23) by (simpl; lia).
  split; [exact H|].
  destruct (time_bucket_ranges (mk_datetime 2026 11 3 4 0 0) H)
    as (_ & _ & _ & _ & _ & _ & H4 & _).
  apply H4. reflexivity.
Defined.

(** ** Supported locations *)

(** C7. [list_supported_locations] returns the six canonical names in the
    order in which the location table declares them. *)
Theorem list_supported_locations_exact :
  list_supported_locations =
  [py "Seattle"; py "New York"; py "London"; py "Berlin"; py "Tokyo"; py "Sydney"].
Proof. reflexivity. Qed.

(** ** Running [get_weather_at_location] *)

Lemma static_weather_total (dt : datetime) :
  exists description,
    dict_get STATIC_WEATHER (_get_time_bucket dt) = Some description /\
    In (_get_time_bucket dt, description) STATIC_WEATHER.
Proof. apply dict_get_contains, dict_contains_keys, bucket_in_table. Qed.

(** The steps of one call, with the dictionary lookups and the [try] made
    explicit. *)
Lemma get_weather_at_location_run (sys : System) (location : str) (n : nat) :
  get_weather_at_location sys location n =
  let norm := _normalize_location location in
  match dict_get LOCATIONS norm with
  | None => (Return unsupported_message, n)
  | Some tz_name =>
      match pytz_timezone sys tz_name with
      | Raise _ => (Return timezone_failure_message, n)
      | Return tz =>
          let now_local := fromutc tz (clock sys n) in
          match dict_get STATIC_WEATHER (_get_time_bucket now_local) with
          | Some description =>
              (Return (py "Weather for " ++ norm ++ py " at " ++ strftime now_local
                         ++ py " (" ++ _get_time_bucket now_local ++ py "): "
                         ++ description), S n)
          | None => (Raise (KeyError (_get_time_bucket now_local)), S n)
          end
      end
  end.
Proof.
  unfold get_weather_at_location, dict_contains, bind, getitem, ret, datetime_now.
  cbv zeta.
  destruct (dict_get LOCATIONS (_normalize_location location)) as [tz_name|];
    [|reflexivity].
  cbn [negb].
  destruct (pytz_timezone sys tz_name) as [tz|e]; [|reflexivity].
  destruct (dict_get STATIC_WEATHER (_get_time_bucket (fromutc tz (clock sys n))));
    reflexivity.
Qed.

Lemma get_weather_at_location_returns (sys : System) (location : str) (n : nat) :
  exists line, fst (get_weather_at_location sys location n) = Return line.
Proof.
  rewrite get_weather_at_location_run. cbv zeta.
  destruct (dict_get LOCATIONS (_normalize_location location)) as [tz_name|];
    [|eexists; reflexivity].
  destruct (pytz_timezone sys tz_name) as [tz|e]; [|eexists; reflexivity].
  destruct (static_weather_total (fromutc tz (clock sys n))) as [d [-> _]].
  eexists; reflexivity.
Qed.

Lemma get_weather_at_location_unsupported (sys : System) (location : str) (n : nat) :
  dict_contains LOCATIONS (_normalize_location location) = false ->
  get_weather_at_location sys location n = (Return unsupported_message, n).
Proof.
  intros H. rewrite get_weather_at_location_run. cbv zeta.
  unfold dict_contains in H.
  destruct (dict_get LOCATIONS (_normalize_location location)); [discriminate|reflexivity].
Qed.

(** ** The batch loop *)

Lemma for_each_location_run (sys : System) (locations : list str) :
  forall (acc : list str) (n : nat),
  exists results,
    for_each_location PlainFunction sys locations acc n =
      (Return (acc ++ results), reads_after sys locations n) /\
    length results = length locations /\
    forall i loc, nth_error locations i = Some loc ->
      exists line, nth_error results i = Some line /\
        fst (get_weather_at_location sys loc (reads_after sys (firstn i locations) n))
          = Return line.
Proof.
  induction locations as [|loc rest IH]; intros acc n.
  - exists []. simpl. rewrite app_nil_r. repeat split.
    intros [|i] l H; discriminate.
  - destruct (get_weather_at_location_returns sys loc n) as [r Hr].
    destruct (IH (acc ++ [r]) (snd (get_weather_at_location sys loc n)))
      as [rs [Hrun [Hlen Hnth]]].
    exists (r :: rs). split; [|split].
    + simpl. unfold bind, call_tool.
      destruct (get_weather_at_location sys loc n) as [[a|e] n'] eqn:E;
        simpl in Hr; [|discriminate].
      injection Hr as ->. simpl in Hrun. rewrite Hrun, <- app_assoc. reflexivity.
    + simpl. rewrite Hlen. reflexivity.
    + intros [|i] l H; simpl in H.
      * injection H as <-. exists r. split; [reflexivity|exact Hr].
      * simpl. apply Hnth, H.
Qed.

(** With a clock that does not move, the result of a call does not depend on
    how many reads came before it. *)
Lemma get_weather_at_location_frozen (sys : System) (location : str) (n m : nat) :
  clock sys m = clock sys n ->
  fst (get_weather_at_location sys location m) =
  fst (get_weather_at_location sys location n).
Proof.
  intros H. rewrite !get_weather_at_location_run. cbv zeta.
  destruct (dict_get LOCATIONS (_normalize_location location)) as [tz_name|];
    [|reflexivity].
  destruct (pytz_timezone sys tz_name) as [tz|e]; [|reflexivity].
  rewrite H.
  destruct (dict_get STATIC_WEATHER (_get_time_bucket (fromutc tz (clock sys n))));
    reflexivity.
Qed.

(** With the decorated name bound to a tool object, the first call of the
    loop raises. *)
Lemma for_each_location_tool_object (sys : System) (loc : str) (rest acc : list str)
    (n : nat) :
  for_each_location FunctionTool sys (loc :: rest) acc n =
  (Raise (TypeError not_callable_message), n).
Proof. reflexivity. Qed.


(** C6. What the batch call does depends on what [@mcp.tool()] leaves bound to
    the name [get_weather_at_location]. Bound to the function, the batch
    returns, for every input list, a list of the same length whose i-th
    element is what [get_weather_at_location] returns for the i-th input,
    called after the calls for the inputs before it (and, when the clock
    stands still, what it returns at the start of the batch); the empty list
    gives the empty list. Bound to a tool object, the batch returns the empty
    list for the empty list and raises [TypeError] at its first call for every
    other input, before any clock read. *)
Theorem multiple_locations_by_binding (sys : System) (locations : list str) (n : nat) :
  (exists results,
     get_weather_for_multiple_locations PlainFunction sys locations n =
       (Return results, reads_after sys locations n) /\
     length results = length locations /\
     (forall i loc, nth_error locations i = Some loc ->
        exists line, nth_error results i = Some line /\
          fst (get_weather_at_location sys loc (reads_after sys (firstn i locations) n))
            = Return line) /\
     ((forall m, clock sys m = clock sys n) ->
      forall i loc, nth_error locations i = Some loc ->
        exists line, nth_error results i = Some line /\
          fst (get_weather_at_location sys loc n) = Return line) /\
     (locations = [] -> results = [])) /\
  get_weather_for_multiple_locations FunctionTool sys [] n = (Return [], n) /\
  (locations <> [] ->
   get_weather_for_multiple_locations FunctionTool sys locations n =
     (Raise (TypeError not_callable_message), n)).
Proof.
  split; [|split].
  - destruct (for_each_location_run sys locations [] n) as [rs [Hrun [Hlen Hnth]]].
    exists rs. simpl in Hrun. repeat split; try assumption.
    + intros Hfrozen i loc H. destruct (Hnth i loc H) as [line [H1 H2]].
      exists line. split; [exact H1|].
      rewrite <- H2. symmetry. apply get_weather_at_location_frozen, Hfrozen.
    + intros ->. destruct rs; [reflexivity|discriminate].
  - reflexivity.
  - destruct locations as [|loc rest]; [congruence|].
    intros _. apply for_each_location_tool_object.
Qed.

Lemma multiple_locations_by_binding_witness :
  get_weather_for_multiple_locations FunctionTool sample_system
    [py "London"; py "Atlantis"; py "Tokyo"] 0%nat =
  (Raise (TypeError not_callable_message), 0%nat).
Proof.
  apply (multiple_locations_by_binding sample_system
           [py "London"; py "Atlantis"; py "Tokyo"] 0%nat).
  discriminate.
Defined.



(** ** Determinism *)

Lemma minute_view_eq (a b : datetime) :
  minute_view a = minute_view b ->
  _get_time_bucket a = _get_time_bucket b /\ strftime a = strftime b.
Proof.
  unfold minute_view, _get_time_bucket, strftime.
  intros E. injection E as -> -> -> -> ->. split; reflexivity.
Qed.

(** C9. The string returned for a location depends on the surroundings only
    through the local date, hour and minute the clock shows in the zone of
    that location: two calls with the same argument that see the same local
    minute return the same string. *)
Theorem deterministic_given_clock (sys1 sys2 : System) (location : str) (n1 n2 : nat) :
  (forall tz_name,
     dict_get LOCATIONS (_normalize_location location) = Some tz_name ->
     local_minute sys1 tz_name n1 = local_minute sys2 tz_name n2) ->
  fst (get_weather_at_location sys1 location n1) =
  fst (get_weather_at_location sys2 location n2).
Proof.
  intros Hsame. rewrite !get_weather_at_location_run. cbv zeta.
  destruct (dict_get LOCATIONS (_normalize_location location)) as [tz_name|];
    [|reflexivity].
  specialize (Hsame tz_name eq_refl). unfold local_minute in Hsame.
  destruct (pytz_timezone sys1 tz_name) as [tz1|e1];
    destruct (pytz_timezone sys2 tz_name) as [tz2|e2];
    try discriminate; [|reflexivity].
  assert (Hview : minute_view (fromutc tz1 (clock sys1 n1)) =
                  minute_view (fromutc tz2 (clock sys2 n2))) by congruence.
  apply minute_view_eq in Hview. destruct Hview as [Hbucket Hstr]. rewrite Hbucket, Hstr.
  destruct (dict_get STATIC_WEATHER (_get_time_bucket (fromutc tz2 (clock sys2 n2))));
    reflexivity.
Qed.

(** Two reads of the sample clock twenty seconds apart, within one minute. *)
Lemma deterministic_given_clock_witness :
  fst (get_weather_at_location sample_system (py "London") 0%nat) =
  fst (get_weather_at_location sample_system (py "London") 1%nat).
Proof.
  apply (deterministic_given_clock sample_system sample_system (py "London") 0%nat 1%nat).
  intros tz_name H. vm_compute in H. injection H as <-. vm_compute. reflexivity.
Defined.

(** ** The line for a supported location *)

Lemma eqb_of_neq (a b : N) : a <> b -> (a =? b) = false.
Proof. apply N.eqb_neq. Qed.

Lemma digit_single_line (n : N) : is_linebreak (digit n) = false.
Proof.
  unfold is_linebreak, digit. cbn [existsb].
  assert (H : n mod 10 < 10) by (apply N.mod_lt; discriminate).
  revert H. generalize (n mod 10). intros d H.
  rewrite !eqb_of_neq by lia. reflexivity.
Qed.

Lemma two_digits_single_line (n : N) : single_line (two_digits n) = true.
Proof.
  unfold single_line, two_digits. cbn [forallb].
  rewrite !digit_single_line. reflexivity.
Qed.

Lemma four_digits_single_line (n : N) : single_line (four_digits n) = true.
Proof.
  unfold single_line, four_digits. cbn [forallb].
  rewrite !digit_single_line. reflexivity.
Qed.

Lemma single_line_app (a b : str) :
  single_line (a ++ b) = single_line a && single_line b.
Proof. apply forallb_app. Qed.

Lemma strftime_single_line (dt : datetime) : single_line (strftime dt) = true.
Proof.
  unfold strftime.
  rewrite !single_line_app, !two_digits_single_line, four_digits_single_line.
  reflexivity.
Qed.

Lemma location_keys_single_line (key : str) :
  In key (dict_keys LOCATIONS) -> single_line key = true.
Proof. simpl. intuition (subst; reflexivity). Qed.

Lemma static_weather_single_line (bucket description : str) :
  In (bucket, description) STATIC_WEATHER ->
  single_line bucket = true /\ single_line description = true.
Proof.
  simpl. intros H.
  repeat (destruct H as [H|H]; [injection H as <- <-; split; reflexivity|]).
  contradiction.
Qed.

(** C2. For an input that normalizes to one of the six keys, and a zone
    database in which the zones of the location table resolve, the call
    returns neither guidance text but one line made of the canonical name,
    the local date and hour:minute (24-hour clock), the bucket and the
    description of that bucket. *)
Theorem canonical_location_line (sys : System) (location : str) (n : nat) :
  In (_normalize_location location) list_supported_locations ->
  zones_resolve sys ->
  exists tz_name tz description,
    dict_get LOCATIONS (_normalize_location location) = Some tz_name /\
    pytz_timezone sys tz_name = Return tz /\
    let now_local := fromutc tz (clock sys n) in
    let bucket := _get_time_bucket now_local in
    let line :=
      py "Weather for " ++ _normalize_location location ++ py " at "
        ++ four_digits (year now_local) ++ py "-" ++ two_digits (month now_local)
        ++ py "-" ++ two_digits (day now_local) ++ py " "
        ++ two_digits (hour now_local) ++ py ":" ++ two_digits (minute now_local)
        ++ py " (" ++ bucket ++ py "): " ++ description in
    dict_get STATIC_WEATHER bucket = Some description /\
    fst (get_weather_at_location sys location n) = Return line /\
    line <> unsupported_message /\
    line <> timezone_failure_message /\
    single_line line = true.
Proof.
  intros Hkey Hzones.
  pose proof Hkey as Hin. apply dict_contains_keys, dict_get_contains in Hin.
  destruct Hin as [tz_name [Hget _]].
  destruct (Hzones _ _ Hget) as [tz Htz].
  destruct (static_weather_total (fromutc tz (clock sys n))) as [d [Hd Hind]].
  exists tz_name, tz, d. split; [exact Hget|]. split; [exact Htz|].
  cbv zeta. split; [exact Hd|]. split; [|split; [|split]].
  - rewrite get_weather_at_location_run. cbv zeta.
    rewrite Hget, Htz, Hd. unfold strftime. simpl fst.
    repeat rewrite <- app_assoc. reflexivity.
  - discriminate.
  - discriminate.
  - apply static_weather_single_line in Hind. destruct Hind as [Hb Hdesc].
    rewrite !single_line_app, Hb, Hdesc, !two_digits_single_line,
      four_digits_single_line, (location_keys_single_line _ Hkey).
    reflexivity.
Qed.

Lemma sample_zones_resolve : zones_resolve sample_system.
Proof.
  intros key tz_name H. simpl in H.
  repeat (match type of H with
          | (if ?c then _ else _) = _ => destruct c
          end; [injection H as <-; eexists; reflexivity|]).
  discriminate.
Defined.

Lemma canonical_location_line_witness :
  exists line,
    fst (get_weather_at_location sample_system (py "  new YORK ") 0%nat) = Return line /\
    line <> unsupported_message /\
    line <> timezone_failure_message /\
    single_line line = true.
Proof.
  destruct (canonical_location_line sample_system (py "  new YORK ") 0%nat)
    as (tz_name & tz & d & _ & _ & _ & Hline & Hrest).
  - vm_compute. tauto.
  - exact sample_zones_resolve.
  - eexists. split; [exact Hline | exact Hrest].
Defined.

(** ** Trimming *)

Lemma lstrip_suffix (s : str) :
  exists w, s = w ++ lstrip s /\ all_whitespace w = true.
Proof.
  induction s as [|c r [w [Hs Hw]]]; simpl.
  - exists []. split; reflexivity.
  - destruct (Unicode.isspace c) eqn:E.
    + exists (c :: w). simpl. rewrite E, Hw. split; [f_equal; exact Hs|reflexivity].
    + exists []. split; reflexivity.
Qed.

Lemma lstrip_leading (s : str) : leading_whitespace (lstrip s) = false.
Proof.
  induction s as [|c r IH]; simpl; [reflexivity|].
  destruct (Unicode.isspace c) eqn:E; [exact IH|]. simpl. exact E.
Qed.

Lemma lstrip_fixed (s : str) : leading_whitespace s = false -> lstrip s = s.
Proof. destruct s as [|c r]; simpl; [reflexivity|]. intros ->. reflexivity. Qed.

Lemma lstrip_app_whitespace (w s : str) :
  all_whitespace w = true -> lstrip (w ++ s) = lstrip s.
Proof.
  induction w as [|c w IH]; simpl; [reflexivity|].
  intros H. apply andb_true_iff in H. destruct H as [-> H]. apply IH, H.
Qed.

Lemma all_whitespace_rev (w : str) : all_whitespace (rev w) = all_whitespace w.
Proof.
  unfold all_whitespace. induction w as [|c w IH]; simpl; [reflexivity|].
  rewrite forallb_app, IH. simpl. rewrite andb_true_r. apply andb_comm.
Qed.

Lemma rstrip_prefix (s : str) :
  exists w, s = rstrip s ++ w /\ all_whitespace w = true.
Proof.
  unfold rstrip. destruct (lstrip_suffix (rev s)) as [w [Hs Hw]].
  exists (rev w). split.
  - rewrite <- rev_app_distr, <- Hs, rev_involutive. reflexivity.
  - rewrite all_whitespace_rev. exact Hw.
Qed.

Lemma rstrip_trailing (s : str) : trailing_whitespace (rstrip s) = false.
Proof. unfold trailing_whitespace, rstrip. rewrite rev_involutive. apply lstrip_leading. Qed.

Lemma rstrip_leading (s : str) :
  leading_whitespace s = false -> leading_whitespace (rstrip s) = false.
Proof.
  intros H. destruct (rstrip_prefix s) as [w [Hs _]].
  destruct (rstrip s) as [|c r]; [reflexivity|].
  rewrite Hs in H. exact H.
Qed.

Lemma rstrip_fixed (s : str) : trailing_whitespace s = false -> rstrip s = s.
Proof.
  unfold trailing_whitespace, rstrip. intros H.
  rewrite lstrip_fixed by exact H. apply rev_involutive.
Qed.

Lemma rstrip_app_whitespace (s w : str) :
  all_whitespace w = true -> rstrip (s ++ w) = rstrip s.
Proof.
  intros H. unfold rstrip. rewrite rev_app_distr, lstrip_app_whitespace; [reflexivity|].
  rewrite all_whitespace_rev. exact H.
Qed.

Lemma strip_edges (s : str) :
  leading_whitespace (strip s) = false /\ trailing_whitespace (strip s) = false.
Proof.
  unfold strip. split.
  - apply rstrip_leading, lstrip_leading.
  - apply rstrip_trailing.
Qed.

(** Whitespace around a string without outer whitespace is what [strip] removes. *)
Lemma strip_padded (w1 s w2 : str) :
  all_whitespace w1 = true -> all_whitespace w2 = true ->
  leading_whitespace s = false -> trailing_whitespace s = false ->
  s <> [] ->
  strip (w1 ++ s ++ w2) = s.
Proof.
  intros H1 H2 Hl Ht Hne. unfold strip.
  rewrite lstrip_app_whitespace by exact H1.
  rewrite lstrip_fixed.
  - rewrite rstrip_app_whitespace by exact H2. apply rstrip_fixed, Ht.
  - destruct s as [|c r]; [contradiction|exact Hl].
Qed.

Lemma trailing_ends_with_space (s : str) :
  trailing_whitespace s = ends_with_space s.
Proof.
  unfold trailing_whitespace.
  induction s as [|c r IH]; [reflexivity|].
  destruct r as [|d r']; [reflexivity|].
  change (ends_with_space (c :: d :: r')) with (ends_with_space (d :: r')).
  rewrite <- IH. simpl.
  destruct (rev r' ++ [d]) eqn:E; [|reflexivity].
  destruct (rev r'); discriminate.
Qed.

Lemma ends_with_space_app (a b : str) :
  b <> [] -> ends_with_space (a ++ b) = ends_with_space b.
Proof.
  intros Hb. induction a as [|c a IH]; [reflexivity|].
  simpl. destruct (a ++ b) eqn:E; [|exact IH].
  destruct a; [contradiction|discriminate].
Qed.

Lemma space_free_ends (e : str) : space_free e = true -> ends_with_space e = false.
Proof.
  induction e as [|c [|d r] IH]; simpl; intros H; [reflexivity| |].
  - rewrite andb_true_r in H. apply negb_true_iff, H.
  - apply IH. apply andb_true_iff in H. apply H.
Qed.

(** ** Case mappings keep the edges of a string free of whitespace *)

Lemma expands_nonempty (s out : str) : expands s out -> s <> [] -> out <> [].
Proof.
  intros H. destruct H as [|c r e out [He _] _]; [congruence|].
  intros _. destruct e; [contradiction|discriminate].
Qed.

Lemma expands_leading (s out : str) :
  expands s out -> leading_whitespace s = false -> leading_whitespace out = false.
Proof.
  intros H. destruct H as [|c r e out [He Hfree] _]; [reflexivity|].
  simpl. intros Hc. specialize (Hfree Hc).
  destruct e as [|d e]; [contradiction|]. simpl in *.
  apply andb_true_iff in Hfree. apply negb_true_iff, Hfree.
Qed.

Lemma expands_trailing (s out : str) :
  expands s out -> trailing_whitespace s = false -> trailing_whitespace out = false.
Proof.
  rewrite !trailing_ends_with_space.
  induction 1 as [|c r e out [He Hfree] Hexp IH]; [reflexivity|].
  destruct r as [|d r'].
  - inversion Hexp; subst. rewrite app_nil_r. simpl.
    intros Hc. apply space_free_ends, Hfree, Hc.
  - intros H. change (ends_with_space (d :: r') = false) in H.
    rewrite ends_with_space_app; [apply IH, H|].
    apply (expands_nonempty _ _ Hexp). discriminate.
Qed.

Lemma in_ranges_bounds (rs : list (N * N)) (c : codepoint) :
  Unicode.in_ranges rs c = true -> exists lo hi, In (lo, hi) rs /\ lo <= c <= hi.
Proof.
  unfold Unicode.in_ranges. intros H. apply existsb_exists in H.
  destruct H as [[lo hi] [Hin H]]. simpl in H.
  apply andb_true_iff in H. destruct H as [H1 H2].
  apply N.leb_le in H1, H2. exists lo, hi. tauto.
Qed.

Lemma avoids_whitespace_sound (lo hi d : N) :
  avoids_whitespace lo hi = true -> lo <= d <= hi -> Unicode.isspace d = false.
Proof.
  intros Havoid Hd. destruct (Unicode.isspace d) eqn:E; [|reflexivity].
  apply in_ranges_bounds in E. destruct E as [a [b [Hin Hab]]].
  unfold avoids_whitespace in Havoid.
  rewrite forallb_forall in Havoid. specialize (Havoid _ Hin). simpl in Havoid.
  apply orb_true_iff in Havoid. destruct Havoid as [H|H]; apply N.ltb_lt in H; lia.
Qed.

Lemma assoc_in {A : Type} (c : codepoint) (l : list (N * A)) (v : A) :
  Unicode.assoc c l = Some v -> In (c, v) l.
Proof.
  induction l as [|[k w] l IH]; simpl; [discriminate|].
  destruct (N.eqb_spec k c) as [->|_].
  - intros E. injection E as ->. tauto.
  - intros E. right. apply IH, E.
Qed.

Lemma shift_lookup_range (tbl : list Unicode.shift) (c d : codepoint) :
  Unicode.shift_lookup tbl c = Some d ->
  exists lo hi step img, In (lo, hi, step, img) tbl /\ lo <= c <= hi /\ d = img + (c - lo).
Proof.
  unfold Unicode.shift_lookup.
  destruct (find (Unicode.shift_hits c) tbl) as [[[[lo hi] step] img]|] eqn:E;
    [|discriminate].
  intros H. injection H as <-. apply find_some in E. destruct E as [Hin Hhit].
  unfold Unicode.shift_hits in Hhit.
  apply andb_true_iff in Hhit. destruct Hhit as [Hhit _].
  apply andb_true_iff in Hhit. destruct Hhit as [H1 H2].
  apply N.leb_le in H1, H2. exists lo, hi, step, img. tauto.
Qed.

Lemma full_mapping_keeps (special : list (N * list N)) (tbl : list Unicode.shift) :
  table_clean special tbl = true ->
  forall c, keeps_edges c (Unicode.full_mapping special tbl c).
Proof.
  unfold table_clean. intros H c.
  apply andb_true_iff in H. destruct H as [Hspecial Hshifts].
  rewrite forallb_forall in Hspecial, Hshifts.
  unfold Unicode.full_mapping.
  destruct (Unicode.assoc c special) as [l|] eqn:Ea.
  - apply assoc_in in Ea. specialize (Hspecial _ Ea). simpl in Hspecial.
    destruct l as [|d l]; [discriminate|]. split; [discriminate|]. intros _. exact Hspecial.
  - destruct (Unicode.shift_lookup tbl c) as [d|] eqn:Es.
    + apply shift_lookup_range in Es.
      destruct Es as (lo & hi & step & img & Hin & Hc & ->).
      specialize (Hshifts _ Hin). simpl in Hshifts.
      split; [discriminate|]. intros _. unfold space_free. simpl.
      rewrite (avoids_whitespace_sound _ _ _ Hshifts); [reflexivity|lia].
    + split; [discriminate|]. intros Hc. unfold space_free. simpl. rewrite Hc. reflexivity.
Qed.

Lemma to_lower_full_keeps (c : codepoint) : keeps_edges c (Unicode.to_lower_full c).
Proof. apply full_mapping_keeps. vm_compute. reflexivity. Qed.

Lemma to_title_full_keeps (c : codepoint) : keeps_edges c (Unicode.to_title_full c).
Proof. apply full_mapping_keeps. vm_compute. reflexivity. Qed.

Lemma lower_ucs4_keeps (before_rev : str) (c : codepoint) (after : str) :
  keeps_edges c (lower_ucs4 before_rev c after).
Proof.
  unfold lower_ucs4. destruct (c =? capital_sigma); [|apply to_lower_full_keeps].
  split; [discriminate|]. intros _. destruct (final_sigma before_rev after); reflexivity.
Qed.

Lemma do_lower_expands (s : str) : forall before_rev, expands s (do_lower before_rev s).
Proof.
  induction s as [|c r IH]; intros before_rev; simpl; constructor.
  - apply lower_ucs4_keeps.
  - apply IH.
Qed.

Lemma do_title_expands (s : str) :
  forall previous_is_cased before_rev,
  expands s (do_title previous_is_cased before_rev s).
Proof.
  induction s as [|c r IH]; intros previous_is_cased before_rev; simpl; constructor.
  - destruct previous_is_cased; [apply lower_ucs4_keeps|apply to_title_full_keeps].
  - apply IH.
Qed.

Lemma lower_edges (s : str) :
  leading_whitespace s = false -> trailing_whitespace s = false ->
  leading_whitespace (lower s) = false /\ trailing_whitespace (lower s) = false.
Proof.
  intros Hl Ht. pose proof (do_lower_expands s []) as H. split.
  - apply (expands_leading _ _ H Hl).
  - apply (expands_trailing _ _ H Ht).
Qed.

Lemma title_edges (s : str) :
  leading_whitespace s = false -> trailing_whitespace s = false ->
  leading_whitespace (title s) = false /\ trailing_whitespace (title s) = false.
Proof.
  intros Hl Ht. pose proof (do_title_expands s false []) as H. split.
  - apply (expands_leading _ _ H Hl).
  - apply (expands_trailing _ _ H Ht).
Qed.

(** ** The loop over the keys *)

Lemma first_matching_key_some (name : str) (keys : list str) (key : str) :
  first_matching_key name keys = Some key -> In key keys /\ name = lower key.
Proof.
  induction keys as [|k rest IH]; simpl; [discriminate|].
  destruct (str_eqb name (lower k)) eqn:E.
  - intros H. injection H as <-. apply str_eqb_eq in E. tauto.
  - intros H. destruct (IH H). tauto.
Qed.

Lemma first_matching_key_none (name : str) (keys : list str) :
  first_matching_key name keys = None <->
  forall key, In key keys -> name <> lower key.
Proof.
  induction keys as [|k rest IH]; simpl.
  - split; [intros _ key []|reflexivity].
  - destruct (str_eqb name (lower k)) eqn:E.
    + apply str_eqb_eq in E. split; [discriminate|].
      intros H. exfalso. apply (H k); tauto.
    + rewrite IH. split.
      * intros H key [<-|Hin]; [|apply H, Hin].
        intros ->. rewrite str_eqb_refl in E. discriminate.
      * intros H key Hin. apply H. tauto.
Qed.

Lemma not_matches_canonical (s : str) :
  ~ matches_canonical s <->
  first_matching_key (lower (strip s)) (dict_keys LOCATIONS) = None.
Proof.
  rewrite first_matching_key_none. unfold matches_canonical. split.
  - intros H key Hin E. apply H. exists key. tauto.
  - intros H [key [Hin E]]. apply (H key Hin E).
Qed.

Lemma normalize_unmatched (s : str) :
  ~ matches_canonical s -> _normalize_location s = title (lower (strip s)).
Proof.
  intros H. apply not_matches_canonical in H.
  unfold _normalize_location. cbv zeta. rewrite H. reflexivity.
Qed.

Lemma normalize_matched (s : str) :
  matches_canonical s -> In (_normalize_location s) (dict_keys LOCATIONS).
Proof.
  intros H. unfold _normalize_location. cbv zeta.
  destruct (first_matching_key (lower (strip s)) (dict_keys LOCATIONS)) as [key|] eqn:E.
  - apply first_matching_key_some in E. tauto.
  - exfalso. apply not_matches_canonical in E. contradiction.
Qed.

(** ** Normalisation *)

Lemma location_keys_edges (key : str) :
  In key (dict_keys LOCATIONS) ->
  leading_whitespace key = false /\ trailing_whitespace key = false /\ key <> [].
Proof.
  simpl. intros H.
  repeat (destruct H as [H|H];
          [subst key; repeat split; try reflexivity; discriminate|]).
  try contradiction.
Qed.

(** C3. For each of the six canonical names L, [_normalize_location] gives
    back L for L lower-cased, for L upper-cased, and for L with whitespace
    before and after it (two spaces on each side included). *)
Theorem canonical_names_normalize (L w1 w2 : str) :
  In L list_supported_locations ->
  all_whitespace w1 = true -> all_whitespace w2 = true ->
  _normalize_location (lower L) = L /\
  _normalize_location (upper L) = L /\
  _normalize_location (py "  " ++ L ++ py "  ") = L /\
  _normalize_location (w1 ++ L ++ w2) = L.
Proof.
  intros HL H1 H2.
  destruct (location_keys_edges L HL) as (Hl & Ht & Hne).
  assert (Hpad : forall a b, all_whitespace a = true -> all_whitespace b = true ->
                   _normalize_location (a ++ L ++ b) = L).
  { intros a b Ha Hb. unfold _normalize_location.
    rewrite (strip_padded a L b Ha Hb Hl Ht Hne).
    simpl in HL.
    repeat (destruct HL as [HL|HL]; [subst L; vm_compute; reflexivity|]).
    try contradiction. }
  split; [|split; [|split]].
  - simpl in HL.
    repeat (destruct HL as [HL|HL]; [subst L; vm_compute; reflexivity|]).
    contradiction.
  - simpl in HL.
    repeat (destruct HL as [HL|HL]; [subst L; vm_compute; reflexivity|]).
    contradiction.
  - apply Hpad; reflexivity.
  - apply Hpad; assumption.
Qed.

Lemma canonical_names_normalize_witness :
  _normalize_location (lower (py "New York")) = py "New York" /\
  _normalize_location (upper (py "New York")) = py "New York" /\
  _normalize_location (py "  " ++ py "New York" ++ py "  ") = py "New York" /\
  _normalize_location ([0x09; 0xA0] ++ py "New York" ++ [0x3000; 0x0A]) = py "New York".
Proof.
  apply (canonical_names_normalize (py "New York") [0x09; 0xA0] [0x3000; 0x0A]).
  - vm_compute. tauto.
  - reflexivity.
  - reflexivity.
Defined.

Lemma normalize_edges (s : str) :
  leading_whitespace (_normalize_location s) = false /\
  trailing_whitespace (_normalize_location s) = false.
Proof.
  unfold _normalize_location. cbv zeta.
  destruct (first_matching_key (lower (strip s)) (dict_keys LOCATIONS)) as [key|] eqn:E.
  - apply first_matching_key_some in E. destruct E as [Hin _].
    destruct (location_keys_edges key Hin) as (Hl & Ht & _). tauto.
  - destruct (strip_edges s) as [Hl Ht].
    destruct (lower_edges _ Hl Ht) as [Hl' Ht'].
    apply title_edges; assumption.
Qed.

(** C10. [_normalize_location] depends on its input only through the trimmed,
    lower-cased input: two inputs that agree there have the same result. And
    for every input the result has no whitespace at its start or at its end,
    so that stripping it changes nothing. *)
Theorem normalize_respects_folding (s t : str) :
  (lower (strip s) = lower (strip t) -> _normalize_location s = _normalize_location t) /\
  leading_whitespace (_normalize_location s) = false /\
  trailing_whitespace (_normalize_location s) = false /\
  strip (_normalize_location s) = _normalize_location s.
Proof.
  destruct (normalize_edges s) as [Hl Ht].
  split; [|split; [exact Hl|split; [exact Ht|]]].
  - unfold _normalize_location. intros ->. reflexivity.
  - unfold strip. rewrite (lstrip_fixed _ Hl). apply rstrip_fixed, Ht.
Qed.

Lemma normalize_respects_folding_witness :
  _normalize_location (py "  ATLANTIS rising ") = _normalize_location (py "atlantis RISING").
Proof.
  destruct (normalize_respects_folding (py "  ATLANTIS rising ") (py "atlantis RISING"))
    as [H _].
  apply H. vm_compute. reflexivity.
Defined.

(** ** ASCII input *)

Lemma below_128 (P : codepoint -> bool) :
  forallb P ascii_range = true -> forall c, c < 128 -> P c = true.
Proof.
  intros H c Hc. rewrite forallb_forall in H. apply H.
  unfold ascii_range. rewrite <- (N2Nat.id c). apply in_map, in_seq. lia.
Qed.

Lemma ascii_to_lower (c : codepoint) :
  c < 128 -> lower_ucs4 [] c [] = [ascii_lower c] /\ (c =? capital_sigma) = false.
Proof.
  intros Hc. split.
  - apply str_eqb_eq.
    apply (below_128 (fun c => str_eqb (lower_ucs4 [] c []) [ascii_lower c])); [|exact Hc].
    vm_compute. reflexivity.
  - apply N.eqb_neq. unfold capital_sigma. lia.
Qed.

Lemma ascii_lower_ucs4 (before_rev : str) (c : codepoint) (after : str) :
  c < 128 -> lower_ucs4 before_rev c after = [ascii_lower c].
Proof.
  intros Hc. destruct (ascii_to_lower c Hc) as [H Hsigma].
  unfold lower_ucs4 in *. rewrite Hsigma in *. exact H.
Qed.

Lemma ascii_to_title (c : codepoint) :
  c < 128 -> Unicode.to_title_full c = [ascii_upper c].
Proof.
  intros Hc. apply str_eqb_eq.
  apply (below_128 (fun c => str_eqb (Unicode.to_title_full c) [ascii_upper c])); [|exact Hc].
  vm_compute. reflexivity.
Qed.

Lemma ascii_is_cased (c : codepoint) : c < 128 -> Unicode.is_cased c = ascii_alpha c.
Proof.
  intros Hc. apply Bool.eqb_prop.
  apply (below_128 (fun c => Bool.eqb (Unicode.is_cased c) (ascii_alpha c))); [|exact Hc].
  vm_compute. reflexivity.
Qed.

(** The ASCII case mappings stay in ASCII and absorb one another. *)
Lemma ascii_case_algebra (c : codepoint) :
  c < 128 ->
  ascii_lower c < 128 /\ ascii_upper c < 128 /\
  ascii_lower (ascii_lower c) = ascii_lower c /\
  ascii_lower (ascii_upper c) = ascii_lower c /\
  ascii_upper (ascii_lower c) = ascii_upper c /\
  ascii_alpha (ascii_lower c) = ascii_alpha c.
Proof.
  intros Hc.
  assert (H : ((ascii_lower c <? 128) && (ascii_upper c <? 128)
               && (ascii_lower (ascii_lower c) =? ascii_lower c)
               && (ascii_lower (ascii_upper c) =? ascii_lower c)
               && (ascii_upper (ascii_lower c) =? ascii_upper c)
               && Bool.eqb (ascii_alpha (ascii_lower c)) (ascii_alpha c)) = true).
  { apply (below_128 (fun c =>
             (ascii_lower c <? 128) && (ascii_upper c <? 128)
             && (ascii_lower (ascii_lower c) =? ascii_lower c)
             && (ascii_lower (ascii_upper c) =? ascii_lower c)
             && (ascii_upper (ascii_lower c) =? ascii_upper c)
             && Bool.eqb (ascii_alpha (ascii_lower c)) (ascii_alpha c))); [|exact Hc].
    vm_compute. reflexivity. }
  repeat (apply andb_true_iff in H; destruct H as [H ?]).
  repeat split;
    try (apply N.ltb_lt; assumption); try (apply N.eqb_eq; assumption).
  apply Bool.eqb_prop. assumption.
Qed.

Lemma is_ascii_cons (c : codepoint) (s : str) :
  is_ascii (c :: s) = true <-> c < 128 /\ is_ascii s = true.
Proof. unfold is_ascii. simpl. rewrite andb_true_iff, N.ltb_lt. reflexivity. Qed.

Lemma is_ascii_app (a b : str) :
  is_ascii (a ++ b) = is_ascii a && is_ascii b.
Proof. apply forallb_app. Qed.

Lemma do_lower_ascii (s : str) :
  is_ascii s = true -> forall before_rev, do_lower before_rev s = map ascii_lower s.
Proof.
  induction s as [|c r IH]; intros H before_rev; [reflexivity|].
  apply is_ascii_cons in H. destruct H as [Hc Hr].
  simpl. rewrite (ascii_lower_ucs4 _ _ _ Hc), (IH Hr). reflexivity.
Qed.

Lemma do_title_ascii (s : str) :
  is_ascii s = true ->
  forall previous_is_cased before_rev,
  do_title previous_is_cased before_rev s = ascii_title previous_is_cased s.
Proof.
  induction s as [|c r IH]; intros H previous_is_cased before_rev; [reflexivity|].
  apply is_ascii_cons in H. destruct H as [Hc Hr].
  simpl. rewrite (IH Hr), (ascii_is_cased c Hc).
  destruct previous_is_cased.
  - rewrite (ascii_lower_ucs4 _ _ _ Hc). reflexivity.
  - rewrite (ascii_to_title c Hc). reflexivity.
Qed.

Lemma map_ascii_lower_ascii (s : str) :
  is_ascii s = true -> is_ascii (map ascii_lower s) = true.
Proof.
  induction s as [|c r IH]; intros H; [reflexivity|].
  apply is_ascii_cons in H. destruct H as [Hc Hr].
  simpl map. apply is_ascii_cons. split; [apply (ascii_case_algebra c Hc)|apply IH, Hr].
Qed.

Lemma ascii_title_ascii (s : str) :
  is_ascii s = true -> forall b, is_ascii (ascii_title b s) = true.
Proof.
  induction s as [|c r IH]; intros H b; [reflexivity|].
  apply is_ascii_cons in H. destruct H as [Hc Hr].
  simpl ascii_title. apply is_ascii_cons. split; [|apply IH, Hr].
  destruct b; apply (ascii_case_algebra c Hc).
Qed.

Lemma lower_of_title_ascii (s : str) :
  is_ascii s = true ->
  forall b, map ascii_lower (ascii_title b s) = map ascii_lower s.
Proof.
  induction s as [|c r IH]; intros H b; [reflexivity|].
  apply is_ascii_cons in H. destruct H as [Hc Hr].
  simpl. rewrite (IH Hr). f_equal.
  destruct b; apply (ascii_case_algebra c Hc).
Qed.

Lemma title_of_lower_ascii (s : str) :
  is_ascii s = true ->
  forall b, ascii_title b (map ascii_lower s) = ascii_title b s.
Proof.
  induction s as [|c r IH]; intros H b; [reflexivity|].
  apply is_ascii_cons in H. destruct H as [Hc Hr].
  destruct (ascii_case_algebra c Hc) as (_ & _ & Hll & _ & Hul & Hal).
  simpl. rewrite Hal, (IH Hr). f_equal.
  destruct b; assumption.
Qed.

Lemma lower_of_lower_ascii (s : str) :
  is_ascii s = true -> map ascii_lower (map ascii_lower s) = map ascii_lower s.
Proof.
  induction s as [|c r IH]; intros H; [reflexivity|].
  apply is_ascii_cons in H. destruct H as [Hc Hr].
  simpl. rewrite (IH Hr). f_equal. apply (ascii_case_algebra c Hc).
Qed.

Lemma strip_ascii (s : str) : is_ascii s = true -> is_ascii (strip s) = true.
Proof.
  intros H. unfold strip.
  destruct (lstrip_suffix s) as [w1 [H1 _]].
  destruct (rstrip_prefix (lstrip s)) as [w2 [H2 _]].
  rewrite H1, H2, !is_ascii_app in H.
  apply andb_true_iff in H. destruct H as [_ H].
  apply andb_true_iff in H. apply H.
Qed.

(** On ASCII input the three methods are the ASCII ones. *)
Lemma lower_ascii (s : str) : is_ascii s = true -> lower s = map ascii_lower s.
Proof. intros H. apply do_lower_ascii, H. Qed.

Lemma title_ascii (s : str) : is_ascii s = true -> title s = ascii_title false s.
Proof. intros H. apply do_title_ascii, H. Qed.

(** For ASCII input that matches no key, the fallback is the title-cased
    trimmed input, and it is not a key. *)
Lemma ascii_fallback (s : str) :
  is_ascii s = true -> ~ matches_canonical s ->
  _normalize_location s = title (strip s) /\
  dict_contains LOCATIONS (_normalize_location s) = false.
Proof.
  intros Hascii Hunmatched.
  pose proof (strip_ascii s Hascii) as Hstrip.
  pose proof (map_ascii_lower_ascii _ Hstrip) as Hlow.
  rewrite (normalize_unmatched s Hunmatched).
  rewrite (lower_ascii _ Hstrip), (title_ascii _ Hlow), (title_ascii _ Hstrip).
  rewrite (title_of_lower_ascii _ Hstrip).
  split; [reflexivity|].
  destruct (dict_contains LOCATIONS (ascii_title false (strip s))) eqn:E; [|reflexivity].
  exfalso. apply dict_contains_keys in E.
  apply not_matches_canonical in Hunmatched.
  rewrite first_matching_key_none in Hunmatched.
  apply (Hunmatched _ E).
  rewrite (lower_ascii _ Hstrip).
  rewrite (lower_ascii _ (ascii_title_ascii _ Hstrip false)).
  rewrite (lower_of_title_ascii _ Hstrip). reflexivity.
Qed.

(** ** The fallback of [_normalize_location] *)

Lemma long_s_seattle_unmatched : ~ matches_canonical long_s_seattle.
Proof. apply not_matches_canonical. vm_compute. reflexivity. Qed.





(** ** Unsupported locations *)

(** "seattle", and "seattle" with a long s, are not among the six names, and
    both get a weather line. *)
Lemma noncanonical_string_gets_weather :
  (~ In (py "seattle") list_supported_locations /\
   fst (get_weather_at_location sample_system (py "seattle") 0%nat)
     <> Return unsupported_message) /\
  (~ In long_s_seattle list_supported_locations /\
   ~ matches_canonical long_s_seattle /\
   fst (get_weather_at_location sample_system long_s_seattle 0%nat)
     <> Return unsupported_message).
Proof.
  split; [split|split; [|split]].
  - vm_compute. intuition discriminate.
  - vm_compute. discriminate.
  - vm_compute. intuition discriminate.
  - exact long_s_seattle_unmatched.
  - vm_compute. discriminate.
Qed.

(** C5 (amended). For any string whose normalized form is not a key of the
    location table (so for any ASCII string that matches no key),
    [get_weather_at_location] returns exactly the unsupported-location text; it
    raises nothing and reads no clock. *)
Theorem unsupported_when_not_a_key (sys : System) (location : str) (n : nat) :
  (dict_contains LOCATIONS (_normalize_location location) = false ->
   get_weather_at_location sys location n = (Return unsupported_message, n)) /\
  (is_ascii location = true -> ~ matches_canonical location ->
   get_weather_at_location sys location n = (Return unsupported_message, n)).
Proof.
  split.
  - apply get_weather_at_location_unsupported.
  - intros Hascii Hunmatched. apply get_weather_at_location_unsupported.
    apply ascii_fallback; assumption.
Qed.

Lemma unsupported_when_not_a_key_witness :
  get_weather_at_location sample_system (py "Atlantis") 7%nat
    = (Return unsupported_message, 7%nat).
Proof.
  destruct (unsupported_when_not_a_key sample_system (py "Atlantis") 7%nat) as [_ H].
  apply H.
  - reflexivity.
  - apply not_matches_canonical. vm_compute. reflexivity.
Defined.

(** * Further properties of the weather server *)

(** ** Buckets and descriptions *)

(** Whatever the hour field holds, the bucket is a key of [STATIC_WEATHER], so
    the subscript [STATIC_WEATHER[bucket]] never raises; outside 5..21 the
    bucket is "night". *)
Theorem bucket_always_described (dt : datetime) (n : nat) :
  In (_get_time_bucket dt) (dict_keys STATIC_WEATHER) /\
  (exists description,
     getitem STATIC_WEATHER (_get_time_bucket dt) n = (Return description, n)) /\
  (hour dt < 5 \/ 21 < hour dt -> _get_time_bucket dt = py "night").
Proof.
  split; [apply bucket_in_table|]. split.
  - destruct (static_weather_total dt) as [d [Hd _]].
    exists d. unfold getitem. rewrite Hd. reflexivity.
  - intros H. bucket_cases dt; reflexivity.
Qed.

Lemma bucket_always_described_witness :
  _get_time_bucket (mk_datetime 2026 11 3 99 0 0) = py "night".
Proof.
  apply (bucket_always_described (mk_datetime 2026 11 3 99 0 0) 0%nat).
  right. simpl. lia.
Defined.

(** ** Matching *)

Lemma lowered_keys_distinct (k1 k2 : str) :
  In k1 (dict_keys LOCATIONS) -> In k2 (dict_keys LOCATIONS) ->
  lower k1 = lower k2 -> k1 = k2.
Proof.
  simpl. intros H1 H2 E.
  repeat (destruct H1 as [H1|H1]; [subst k1|]); try contradiction;
    repeat (destruct H2 as [H2|H2]; [subst k2|]); try contradiction;
    try reflexivity; vm_compute in E; discriminate.
Qed.

(** An input whose trimmed, lower-cased form is the lower-cased form of a key
    normalizes to that very key: the lower-cased keys are pairwise distinct, so
    the first match of the loop is the only one. *)
Theorem normalize_returns_matching_key (s key : str) :
  In key (dict_keys LOCATIONS) ->
  lower (strip s) = lower key ->
  _normalize_location s = key.
Proof.
  intros Hin E. unfold _normalize_location. cbv zeta.
  destruct (first_matching_key (lower (strip s)) (dict_keys LOCATIONS)) as [k|] eqn:F.
  - apply first_matching_key_some in F. destruct F as [Hk Ek].
    apply lowered_keys_distinct; [exact Hk|exact Hin|congruence].
  - rewrite first_matching_key_none in F. exfalso. apply (F key Hin E).
Qed.

Lemma normalize_returns_matching_key_witness :
  _normalize_location (py "  nEw yOrK") = py "New York".
Proof.
  apply (normalize_returns_matching_key (py "  nEw yOrK") (py "New York")).
  - vm_compute. tauto.
  - vm_compute. reflexivity.
Defined.

(** ** Empty and blank input *)

Lemma strip_all_whitespace (s : str) : all_whitespace s = true -> strip s = [].
Proof.
  intros H. unfold strip.
  assert (E : lstrip s = []).
  { rewrite <- (app_nil_r s). rewrite lstrip_app_whitespace by exact H. reflexivity. }
  rewrite E. reflexivity.
Qed.

(** The empty string and any string of whitespace normalize to the empty
    string, which is no key: the call returns the unsupported-location text
    and reads no clock. *)
Theorem blank_input_is_unsupported (sys : System) (s : str) (n : nat) :
  all_whitespace s = true ->
  _normalize_location s = [] /\
  get_weather_at_location sys s n = (Return unsupported_message, n).
Proof.
  intros H.
  assert (E : _normalize_location s = []).
  { unfold _normalize_location. rewrite (strip_all_whitespace s H). reflexivity. }
  split; [exact E|].
  apply get_weather_at_location_unsupported. rewrite E. reflexivity.
Qed.

Lemma blank_input_is_unsupported_witness :
  get_weather_at_location sample_system [0x20; 0x09; 0x0A] 4%nat
    = (Return unsupported_message, 4%nat).
Proof.
  apply (blank_input_is_unsupported sample_system [0x20; 0x09; 0x0A] 4%nat).
  reflexivity.
Defined.

(** ** Normal forms *)

Lemma normalize_key (key : str) :
  In key (dict_keys LOCATIONS) -> _normalize_location key = key.
Proof.
  simpl. intros H.
  repeat (destruct H as [H|H]; [subst key; vm_compute; reflexivity|]).
  try contradiction.
Qed.

Lemma normalize_cases (s : str) :
  matches_canonical s \/ ~ matches_canonical s.
Proof.
  destruct (first_matching_key (lower (strip s)) (dict_keys LOCATIONS)) as [k|] eqn:F.
  - left. apply first_matching_key_some in F. exists k. exact F.
  - right. apply not_matches_canonical, F.
Qed.

(** On ASCII input normalisation is idempotent: the result of
    [_normalize_location] is left unchanged by a second pass. *)
Theorem normalize_idempotent_ascii (s : str) :
  is_ascii s = true ->
  _normalize_location (_normalize_location s) = _normalize_location s.
Proof.
  intros Hascii. destruct (normalize_cases s) as [Hm|Hu].
  - apply normalize_key, normalize_matched, Hm.
  - destruct (ascii_fallback s Hascii Hu) as [Et _].
    pose proof (strip_ascii s Hascii) as Hstrip.
    pose proof (normalize_edges s) as [Hl Ht].
    assert (Es : strip (_normalize_location s) = _normalize_location s).
    { unfold strip. rewrite (lstrip_fixed _ Hl). apply rstrip_fixed, Ht. }
    assert (El : lower (strip (_normalize_location s)) = lower (strip s)).
    { rewrite Es, Et, (title_ascii _ Hstrip).
      rewrite (lower_ascii _ (ascii_title_ascii _ Hstrip false)).
      rewrite (lower_of_title_ascii _ Hstrip), (lower_ascii _ Hstrip). reflexivity. }
    assert (Hu' : ~ matches_canonical (_normalize_location s)).
    { apply not_matches_canonical. rewrite El. apply not_matches_canonical, Hu. }
    rewrite (normalize_unmatched _ Hu'), El. symmetry. apply normalize_unmatched, Hu.
Qed.

Lemma normalize_idempotent_ascii_witness :
  _normalize_location (_normalize_location (py " mcMURDO station "))
    = _normalize_location (py " mcMURDO station ").
Proof.
  apply (normalize_idempotent_ascii (py " mcMURDO station ")). reflexivity.
Defined.

(** An ASCII input is supported exactly when it is a canonical name up to
    letter case and outer whitespace; for any input, such a match is enough. *)
Theorem supported_iff_matches (s : str) :
  (matches_canonical s -> dict_contains LOCATIONS (_normalize_location s) = true) /\
  (is_ascii s = true ->
   (dict_contains LOCATIONS (_normalize_location s) = true <-> matches_canonical s)).
Proof.
  assert (H : matches_canonical s -> dict_contains LOCATIONS (_normalize_location s) = true).
  { intros Hm. apply dict_contains_keys, normalize_matched, Hm. }
  split; [exact H|].
  intros Hascii. split; [|exact H].
  intros Hc. destruct (normalize_cases s) as [Hm|Hu]; [exact Hm|].
  destruct (ascii_fallback s Hascii Hu) as [_ Hn]. congruence.
Qed.

Lemma supported_iff_matches_witness :
  dict_contains LOCATIONS (_normalize_location (py "Atlantis")) = true <->
  matches_canonical (py "Atlantis").
Proof.
  apply (supported_iff_matches (py "Atlantis")). reflexivity.
Defined.

(** ** The shape of every result *)

Lemma dict_get_in (d : dict) (k v : str) : dict_get d k = Some v -> In (k, v) d.
Proof.
  induction d as [|[k' w] d IH]; simpl; [discriminate|].
  destruct (str_eqb k k') eqn:E.
  - apply str_eqb_eq in E. subst k'. intros H. injection H as ->. tauto.
  - intros H. right. apply IH, H.
Qed.

Lemma digit_ascii (n : N) : (digit n <? 128) = true.
Proof.
  unfold digit. apply N.ltb_lt.
  assert (H : n mod 10 < 10) by (apply N.mod_lt; discriminate).
  revert H. generalize (n mod 10). intros d H. lia.
Qed.

Lemma strftime_ascii (dt : datetime) : is_ascii (strftime dt) = true.
Proof.
  unfold strftime, four_digits, two_digits.
  rewrite !is_ascii_app. unfold is_ascii. cbn [forallb].
  rewrite !digit_ascii. reflexivity.
Qed.

Lemma location_keys_ascii (key : str) :
  In key (dict_keys LOCATIONS) -> is_ascii key = true.
Proof. simpl. intuition (subst; reflexivity). Qed.

Lemma static_weather_ascii (bucket description : str) :
  In (bucket, description) STATIC_WEATHER ->
  is_ascii bucket = true /\ is_ascii description = true.
Proof.
  simpl. intros H.
  repeat (destruct H as [H|H]; [injection H as <- <-; split; reflexivity|]).
  contradiction.
Qed.

(** Every result of [get_weather_at_location] is one of the two guidance
    texts or a weather line put together from a key of the location table, the
    digits of the local time and an entry of the description table. So,
    whatever characters the input holds, the result is ASCII and on one line. *)
Theorem weather_result_shapes (sys : System) (location : str) (n : nat) :
  exists line,
    fst (get_weather_at_location sys location n) = Return line /\
    (line = unsupported_message \/
     line = timezone_failure_message \/
     exists key tz_name tz description,
       In (key, tz_name) LOCATIONS /\
       pytz_timezone sys tz_name = Return tz /\
       In (_get_time_bucket (fromutc tz (clock sys n)), description) STATIC_WEATHER /\
       line = py "Weather for " ++ key ++ py " at "
                ++ strftime (fromutc tz (clock sys n)) ++ py " ("
                ++ _get_time_bucket (fromutc tz (clock sys n)) ++ py "): "
                ++ description) /\
    is_ascii line = true /\
    single_line line = true.
Proof.
  rewrite get_weather_at_location_run. cbv zeta.
  destruct (dict_get LOCATIONS (_normalize_location location)) as [tz_name|] eqn:Hget.
  2: { exists unsupported_message. repeat split; tauto. }
  destruct (pytz_timezone sys tz_name) as [tz|e] eqn:Htz.
  2: { exists timezone_failure_message. repeat split; tauto. }
  destruct (static_weather_total (fromutc tz (clock sys n))) as [d [Hd Hind]].
  rewrite Hd. eexists. split; [reflexivity|].
  apply dict_get_in in Hget.
  assert (Hkey : In (_normalize_location location) (dict_keys LOCATIONS)).
  { apply (in_map fst) in Hget. exact Hget. }
  split; [|split].
  - right. right. exists (_normalize_location location), tz_name, tz, d. tauto.
  - destruct (static_weather_ascii _ _ Hind) as [Hb Hdesc].
    rewrite !is_ascii_app, Hb, Hdesc, strftime_ascii, (location_keys_ascii _ Hkey).
    reflexivity.
  - destruct (static_weather_single_line _ _ Hind) as [Hb Hdesc].
    rewrite !single_line_app, Hb, Hdesc, strftime_single_line,
      (location_keys_single_line _ Hkey).
    reflexivity.
Qed.

(** ** Clock reads *)

Lemma get_weather_at_location_reads (sys : System) (location : str) (n : nat) :
  let n' := snd (get_weather_at_location sys location n) in
  (n' = n \/ n' = S n) /\
  (n' = S n <->
   exists tz_name tz,
     dict_get LOCATIONS (_normalize_location location) = Some tz_name /\
     pytz_timezone sys tz_name = Return tz).
Proof.
  rewrite get_weather_at_location_run. cbv zeta.
  destruct (dict_get LOCATIONS (_normalize_location location)) as [tz_name|].
  2: { simpl. split; [tauto|]. split; [intros H; exfalso; apply (n_Sn n H)|].
       intros (z & tz & H & _). discriminate. }
  destruct (pytz_timezone sys tz_name) as [tz|e] eqn:Htz.
  2: { simpl. split; [tauto|]. split; [intros H; exfalso; apply (n_Sn n H)|].
       intros (z & tz & H & Hz). injection H as <-. congruence. }
  destruct (dict_get STATIC_WEATHER (_get_time_bucket (fromutc tz (clock sys n))));
    simpl; (split; [tauto|]); (split; [|reflexivity]);
    intros _; exists tz_name, tz; tauto.
Qed.

Lemma reads_after_bounds (sys : System) (locations : list str) :
  forall n, (n <= reads_after sys locations n <= n + length locations)%nat.
Proof.
  induction locations as [|loc rest IH]; intros n; simpl; [lia|].
  destruct (get_weather_at_location_reads sys loc n) as [[H|H] _];
    specialize (IH (snd (get_weather_at_location sys loc n))); lia.
Qed.

Lemma for_each_location_reads (binding : tool_binding) (sys : System)
    (locations : list str) :
  forall acc n,
  (n <= snd (for_each_location binding sys locations acc n) <= n + length locations)%nat.
Proof.
  destruct binding.
  - intros acc n. destruct (for_each_location_run sys locations acc n) as [rs [Hrun _]].
    rewrite Hrun. apply reads_after_bounds.
  - intros acc n. destruct locations as [|loc rest]; simpl; lia.
Qed.

(** A call reads the clock once when the location is supported and its zone
    resolves, and not at all otherwise. A batch therefore reads it at most
    once per input: where the decorated name is the function it ends after
    exactly the reads of its calls, and where it is a tool object it reads no
    clock at all. *)
Theorem clock_reads_bounded (sys : System) (locations : list str) (n : nat) :
  (forall loc,
     let n' := snd (get_weather_at_location sys loc n) in
     (n' = n \/ n' = S n) /\
     (n' = S n <->
      exists tz_name tz,
        dict_get LOCATIONS (_normalize_location loc) = Some tz_name /\
        pytz_timezone sys tz_name = Return tz)) /\
  snd (get_weather_for_multiple_locations PlainFunction sys locations n)
    = reads_after sys locations n /\
  snd (get_weather_for_multiple_locations FunctionTool sys locations n) = n /\
  (forall binding,
     n <= snd (get_weather_for_multiple_locations binding sys locations n)
       <= n + length locations)%nat.
Proof.
  split; [intros loc; apply get_weather_at_location_reads|]. split; [|split].
  - destruct (for_each_location_run sys locations [] n) as [rs [Hrun _]].
    unfold get_weather_for_multiple_locations. rewrite Hrun. reflexivity.
  - destruct locations; reflexivity.
  - intros binding. apply for_each_location_reads.
Qed.

(** ** Batches compose *)

Lemma for_each_location_acc (binding : tool_binding) (sys : System)
    (locations : list str) :
  forall acc n,
  for_each_location binding sys locations acc n =
  bind (for_each_location binding sys locations []) (fun rs => ret (acc ++ rs)) n.
Proof.
  induction locations as [|loc rest IH]; intros acc n.
  - simpl. unfold bind, ret. rewrite app_nil_r. reflexivity.
  - simpl. unfold bind at 1 2 3.
    destruct (call_tool binding (get_weather_at_location sys) loc n) as [[r|e] n'];
      [|reflexivity].
    rewrite (IH (acc ++ [r])), (IH [r]). unfold bind, ret.
    destruct (for_each_location binding sys rest [] n') as [[rs|e] m];
      [rewrite <- app_assoc|]; reflexivity.
Qed.

Lemma for_each_location_app (binding : tool_binding) (sys : System) (a b : list str) :
  forall acc n,
  for_each_location binding sys (a ++ b) acc n =
  bind (for_each_location binding sys a acc)
       (fun ra => for_each_location binding sys b ra) n.
Proof.
  induction a as [|loc rest IH]; intros acc n; [reflexivity|].
  simpl. unfold bind at 1 2 3.
  destruct (call_tool binding (get_weather_at_location sys) loc n) as [[r|e] n'];
    [|reflexivity].
  rewrite IH. reflexivity.
Qed.

(** Whatever the decorated name is bound to, the batch for [a ++ b] is the
    batch for [a] followed by the batch for [b]: the results are concatenated,
    and what either raises is what the whole raises. Where the name is the
    function, the second batch starts after the clock reads of the first. *)
Theorem batch_of_concatenation (binding : tool_binding) (sys : System)
    (a b : list str) (n : nat) :
  get_weather_for_multiple_locations binding sys (a ++ b) n =
    (ra <- get_weather_for_multiple_locations binding sys a ;;
     rb <- get_weather_for_multiple_locations binding sys b ;;
     ret (ra ++ rb)) n /\
  exists ra rb,
    get_weather_for_multiple_locations PlainFunction sys a n
      = (Return ra, reads_after sys a n) /\
    get_weather_for_multiple_locations PlainFunction sys b (reads_after sys a n)
      = (Return rb, reads_after sys b (reads_after sys a n)) /\
    get_weather_for_multiple_locations PlainFunction sys (a ++ b) n
      = (Return (ra ++ rb), reads_after sys b (reads_after sys a n)).
Proof.
  assert (Hlaw : forall binding' m,
            get_weather_for_multiple_locations binding' sys (a ++ b) m =
            (ra <- get_weather_for_multiple_locations binding' sys a ;;
             rb <- get_weather_for_multiple_locations binding' sys b ;;
             ret (ra ++ rb)) m).
  { intros binding' m. unfold get_weather_for_multiple_locations.
    rewrite for_each_location_app. unfold bind at 1 2.
    destruct (for_each_location binding' sys a [] m) as [[ra|e] m']; [|reflexivity].
    apply for_each_location_acc. }
  split; [apply Hlaw|].
  destruct (for_each_location_run sys a [] n) as [ra [Ha _]].
  destruct (for_each_location_run sys b [] (reads_after sys a n)) as [rb [Hb _]].
  simpl in Ha, Hb. exists ra, rb.
  unfold get_weather_for_multiple_locations in *.
  split; [exact Ha|]. split; [exact Hb|].
  specialize (Hlaw PlainFunction n).
  unfold get_weather_for_multiple_locations, bind in Hlaw.
  rewrite Ha, Hb in Hlaw. exact Hlaw.
Qed.

(** ** Letter case and padding do not change the answer *)

Lemma get_weather_at_location_folded (sys : System) (s t : str) (n : nat) :
  lower (strip s) = lower (strip t) ->
  get_weather_at_location sys s n = get_weather_at_location sys t n.
Proof.
  intros E. unfold get_weather_at_location, _normalize_location.
  rewrite E. reflexivity.
Qed.

Lemma for_each_location_folded (binding : tool_binding) (sys : System)
    (a b : list str) :
  Forall2 (fun s t => lower (strip s) = lower (strip t)) a b ->
  forall acc n,
  for_each_location binding sys a acc n = for_each_location binding sys b acc n.
Proof.
  induction 1 as [|s t a b E _ IH]; intros acc n; [reflexivity|].
  simpl. unfold bind.
  assert (Ecall : call_tool binding (get_weather_at_location sys) s n =
                  call_tool binding (get_weather_at_location sys) t n).
  { destruct binding; [apply get_weather_at_location_folded, E|reflexivity]. }
  rewrite Ecall.
  destruct (call_tool binding (get_weather_at_location sys) t n) as [[r|e] n'];
    [apply IH|reflexivity].
Qed.

(** Calls whose arguments agree once trimmed and lower-cased give the same
    result and read the clock alike; and batches whose inputs agree in that
    way position by position have the same outcome, the same list or the same
    exception, whatever the decorated name is bound to. *)
Theorem weather_ignores_case_and_padding (binding : tool_binding) (sys : System)
    (a b : list str) (n : nat) :
  Forall2 (fun s t => lower (strip s) = lower (strip t)) a b ->
  get_weather_for_multiple_locations binding sys a n
    = get_weather_for_multiple_locations binding sys b n /\
  Forall2 (fun s t => forall m,
             get_weather_at_location sys s m = get_weather_at_location sys t m) a b.
Proof.
  intros H. split.
  - apply for_each_location_folded, H.
  - induction H as [|s t a b E _ IH]; constructor; [|exact IH].
    intros m. apply get_weather_at_location_folded, E.
Qed.

Lemma weather_ignores_case_and_padding_witness :
  get_weather_for_multiple_locations PlainFunction sample_system
    [py " tokyo"; py "ATLANTIS "] 0%nat =
  get_weather_for_multiple_locations PlainFunction sample_system
    [py "Tokyo"; py "atlantis"] 0%nat.
Proof.
  apply (weather_ignores_case_and_padding PlainFunction sample_system
           [py " tokyo"; py "ATLANTIS "] [py "Tokyo"; py "atlantis"] 0%nat).
  repeat constructor.
Defined.

(** ** The weather line identifies location and minute *)

Lemma digit_inj (a b : N) : digit a = digit b -> a mod 10 = b mod 10.
Proof. unfold digit. intros H. apply N.add_cancel_l in H. exact H. Qed.

Lemma two_digits_inj (a b : N) :
  a < 100 -> b < 100 -> two_digits a = two_digits b -> a = b.
Proof.
  unfold two_digits. intros Ha Hb H. injection H as H1 H2.
  apply digit_inj in H1, H2.
  rewrite (N.div_mod a 10), (N.div_mod b 10) by discriminate.
  rewrite H2. f_equal. f_equal.
  rewrite <- (N.mod_small (a / 10) 10), <- (N.mod_small (b / 10) 10); [exact H1| |].
  - apply N.Div0.div_lt_upper_bound. exact Hb.
  - apply N.Div0.div_lt_upper_bound. exact Ha.
Qed.

Lemma four_digits_inj (a b : N) :
  a < 10000 -> b < 10000 -> four_digits a = four_digits b -> a = b.
Proof.
  unfold four_digits. intros Ha Hb H. injection H as H1 H2 H3 H4.
  apply digit_inj in H1, H2, H3, H4.
  assert (E : forall n, n < 10000 ->
            n = 1000 * ((n / 1000) mod 10) + 100 * ((n / 100) mod 10)
                + 10 * ((n / 10) mod 10) + n mod 10).
  { intros n Hn.
    assert (E1 : n / 100 = n / 10 / 10) by (rewrite N.Div0.div_div; reflexivity).
    assert (E2 : n / 1000 = n / 10 / 10 / 10) by (rewrite !N.Div0.div_div; reflexivity).
    rewrite E1, E2.
    pose proof (N.div_mod n 10) as D0.
    pose proof (N.div_mod (n / 10) 10) as D1.
    pose proof (N.div_mod (n / 10 / 10) 10) as D2.
    assert (S3 : (n / 10 / 10 / 10) mod 10 = n / 10 / 10 / 10).
    { apply N.mod_small. rewrite !N.Div0.div_div.
      apply N.Div0.div_lt_upper_bound. exact Hn. }
    rewrite S3.
    specialize (D0 ltac:(discriminate)). specialize (D1 ltac:(discriminate)).
    specialize (D2 ltac:(discriminate)).
    revert D0 D1 D2.
    generalize (n mod 10) ((n / 10) mod 10) ((n / 10 / 10) mod 10) (n / 10 / 10 / 10).
    generalize (n / 10 / 10) (n / 10).
    intros. lia. }
  rewrite (E a Ha), (E b Hb), H1, H2, H3, H4. reflexivity.
Qed.

Lemma key_prefix_unique (k1 k2 x y : str) :
  In k1 (dict_keys LOCATIONS) -> In k2 (dict_keys LOCATIONS) ->
  k1 ++ x = k2 ++ y -> k1 = k2.
Proof.
  simpl. intros H1 H2 E.
  repeat (destruct H1 as [H1|H1]; [subst k1|]); try contradiction;
    repeat (destruct H2 as [H2|H2]; [subst k2|]); try contradiction;
    try reflexivity; vm_compute in E; discriminate.
Qed.

Lemma strftime_prefix_inj (a b : datetime) (x y : str) :
  datetime_in_range a -> datetime_in_range b ->
  strftime a ++ x = strftime b ++ y ->
  minute_view a = minute_view b.
Proof.
  intros (Hy1 & Hm1 & Hd1 & Hh1 & Hmin1 & _) (Hy2 & Hm2 & Hd2 & Hh2 & Hmin2 & _) E.
  unfold strftime in E.
  change (py "-") with [0x2D] in E. change (py " ") with [0x20] in E.
  change (py ":") with [0x3A] in E.
  assert (Ey : four_digits (year a) = four_digits (year b)).
  { unfold four_digits in *. cbn [app] in E. congruence. }
  assert (Em : two_digits (month a) = two_digits (month b)).
  { unfold four_digits, two_digits in *. cbn [app] in E. congruence. }
  assert (Ed : two_digits (day a) = two_digits (day b)).
  { unfold four_digits, two_digits in *. cbn [app] in E. congruence. }
  assert (Eh : two_digits (hour a) = two_digits (hour b)).
  { unfold four_digits, two_digits in *. cbn [app] in E. congruence. }
  assert (Emin : two_digits (minute a) = two_digits (minute b)).
  { unfold four_digits, two_digits in *. cbn [app] in E. congruence. }
  apply four_digits_inj in Ey; [|lia|lia].
  apply two_digits_inj in Em; [|lia|lia].
  apply two_digits_inj in Ed; [|lia|lia].
  apply two_digits_inj in Eh; [|lia|lia].
  apply two_digits_inj in Emin; [|lia|lia].
  unfold minute_view. congruence.
Qed.

Lemma Return_inj {A : Type} (a b : A) : Return a = Return b -> a = b.
Proof. intros H. injection H as ->. reflexivity. Qed.

(** Two weather lines are equal only if they are for the same canonical
    location and show the same local date, hour and minute: the line
    determines both. *)
Theorem weather_line_identifies_call
    (sys1 sys2 : System) (s1 s2 z1 z2 : str) (tz1 tz2 : tzinfo) (n1 n2 : nat) :
  dict_get LOCATIONS (_normalize_location s1) = Some z1 ->
  pytz_timezone sys1 z1 = Return tz1 ->
  dict_get LOCATIONS (_normalize_location s2) = Some z2 ->
  pytz_timezone sys2 z2 = Return tz2 ->
  datetime_in_range (fromutc tz1 (clock sys1 n1)) ->
  datetime_in_range (fromutc tz2 (clock sys2 n2)) ->
  fst (get_weather_at_location sys1 s1 n1) = fst (get_weather_at_location sys2 s2 n2) ->
  _normalize_location s1 = _normalize_location s2 /\
  minute_view (fromutc tz1 (clock sys1 n1)) = minute_view (fromutc tz2 (clock sys2 n2)).
Proof.
  intros Hg1 Hz1 Hg2 Hz2 Hr1 Hr2 E.
  rewrite !get_weather_at_location_run in E. cbv zeta in E.
  rewrite Hg1, Hz1, Hg2, Hz2 in E.
  destruct (static_weather_total (fromutc tz1 (clock sys1 n1))) as [d1 [Hd1 _]].
  destruct (static_weather_total (fromutc tz2 (clock sys2 n2))) as [d2 [Hd2 _]].
  rewrite Hd1, Hd2 in E. cbn [fst] in E.
  apply Return_inj, app_inv_head in E.
  assert (Hk1 : In (_normalize_location s1) (dict_keys LOCATIONS)).
  { apply dict_get_in in Hg1. apply (in_map fst) in Hg1. exact Hg1. }
  assert (Hk2 : In (_normalize_location s2) (dict_keys LOCATIONS)).
  { apply dict_get_in in Hg2. apply (in_map fst) in Hg2. exact Hg2. }
  pose proof (key_prefix_unique _ _ _ _ Hk1 Hk2 E) as Ek.
  split; [exact Ek|].
  rewrite Ek in E. apply app_inv_head, app_inv_head in E.
  apply (strftime_prefix_inj _ _ _ _ Hr1 Hr2 E).
Qed.

Lemma weather_line_identifies_call_witness :
  _normalize_location (py "london") = _normalize_location (py " LONDON ").
Proof.
  apply (weather_line_identifies_call sample_system sample_system
           (py "london") (py " LONDON ") (py "Europe/London") (py "Europe/London")
           (fixed_offset (py "Europe/London") 0 0) (fixed_offset (py "Europe/London") 0 0)
           0%nat 0%nat);
    try reflexivity; vm_compute; repeat split; discriminate.
Defined.

(** * Properties of the local time tool *)

(** ** Cleaning the zone name *)

Lemma remove_all_absent (c : codepoint) (s : str) : ~ In c (remove_all c s).
Proof.
  unfold remove_all. intros H. apply filter_In in H. destruct H as [_ H].
  rewrite N.eqb_refl in H. discriminate.
Qed.

Lemma remove_all_subset (c x : codepoint) (s : str) : In x (remove_all c s) -> In x s.
Proof. unfold remove_all. intros H. apply filter_In in H. tauto. Qed.

Lemma remove_all_fixed (c : codepoint) (s : str) : ~ In c s -> remove_all c s = s.
Proof.
  unfold remove_all. induction s as [|x s IH]; [reflexivity|].
  intros H. simpl. destruct (N.eqb_spec x c) as [->|_].
  - exfalso. apply H. left. reflexivity.
  - simpl. f_equal. apply IH. intros Hin. apply H. right. exact Hin.
Qed.

Lemma remove_all_app (c : codepoint) (a b : str) :
  remove_all c (a ++ b) = remove_all c a ++ remove_all c b.
Proof. apply filter_app. Qed.

(** [get_current_time_local] never raises: it returns the time line after one
    clock read, or, whatever [pytz.timezone] raised, the apology with no
    clock read. The zone name it looks up and puts into either text is the
    trimmed input without its double quotes and line feeds, so it holds
    neither, and it is the trimmed input when the input holds neither. *)
Theorem local_time_result_shapes (sys : System) (exception_text : exn -> str)
    (location : str) (n : nat) :
  let name := remove_all line_feed (remove_all double_quote (strip location)) in
  ~ In double_quote name /\
  ~ In line_feed name /\
  (~ In double_quote location -> ~ In line_feed location -> name = strip location) /\
  ((exists tz,
      pytz_timezone sys name = Return tz /\
      get_current_time_local sys exception_text location n =
        (Return (py "The current time in " ++ name ++ py " is "
                   ++ strftime_clock12 (fromutc tz (clock sys n)) ++ py " on "
                   ++ strftime_long_date (fromutc tz (clock sys n))), S n)) \/
   (exists e,
      pytz_timezone sys name = Raise e /\
      get_current_time_local sys exception_text location n =
        (Return (py "Sorry, I couldn't find the timezone for '" ++ name
                   ++ py "'. Error: " ++ exception_text e), n))).
Proof.
  intros name. split; [|split; [|split]].
  - intros H. apply remove_all_subset in H. apply (remove_all_absent _ _ H).
  - apply remove_all_absent.
  - intros Hq Hl. subst name.
    assert (Hsub : forall x, In x (strip location) -> In x location).
    { intros x Hx. unfold strip in Hx.
      destruct (lstrip_suffix location) as [w1 [E1 _]].
      destruct (rstrip_prefix (lstrip location)) as [w2 [E2 _]].
      rewrite E1, E2. apply in_or_app. right. apply in_or_app. left. exact Hx. }
    rewrite (remove_all_fixed double_quote) by (intros H; apply Hq, Hsub, H).
    apply remove_all_fixed. intros H. apply Hl, Hsub, H.
  - unfold get_current_time_local. fold name.
    destruct (pytz_timezone sys name) as [tz|e].
    + left. exists tz. split; reflexivity.
    + right. exists e. split; reflexivity.
Qed.

Lemma local_time_result_shapes_witness :
  remove_all line_feed (remove_all double_quote (strip (py " Asia/Tokyo ")))
    = strip (py " Asia/Tokyo ").
Proof.
  destruct (local_time_result_shapes sample_system sample_exception_text
              (py " Asia/Tokyo ") 0%nat) as (_ & _ & H & _).
  apply H; vm_compute; intuition discriminate.
Defined.

(** A zone name free of double quotes, line feeds and outer whitespace gets
    the same answer when it is wrapped in double quotes and padded with
    whitespace. *)
Theorem quoted_zone_accepted (sys : System) (exception_text : exn -> str)
    (name w1 w2 : str) (n : nat) :
  ~ In double_quote name -> ~ In line_feed name ->
  leading_whitespace name = false -> trailing_whitespace name = false ->
  all_whitespace w1 = true -> all_whitespace w2 = true ->
  get_current_time_local sys exception_text
    (w1 ++ (double_quote :: name ++ [double_quote]) ++ w2) n =
  get_current_time_local sys exception_text name n.
Proof.
  intros Hq Hl Hlead Htrail H1 H2.
  assert (Ewrapped : strip (w1 ++ (double_quote :: name ++ [double_quote]) ++ w2)
                     = double_quote :: name ++ [double_quote]).
  { apply strip_padded; try assumption; try reflexivity; [|discriminate].
    unfold trailing_whitespace. simpl rev. rewrite rev_app_distr. reflexivity. }
  assert (Ebare : strip name = name).
  { unfold strip. rewrite (lstrip_fixed _ Hlead). apply rstrip_fixed, Htrail. }
  unfold get_current_time_local. rewrite Ewrapped, Ebare.
  change (double_quote :: name ++ [double_quote])
    with ([double_quote] ++ name ++ [double_quote]).
  rewrite !remove_all_app, (remove_all_fixed double_quote name Hq).
  change (remove_all double_quote [double_quote]) with (@nil codepoint).
  rewrite app_nil_r. reflexivity.
Qed.

Lemma quoted_zone_accepted_witness :
  get_current_time_local sample_system sample_exception_text
    ([0x20] ++ (double_quote :: py "Europe/Berlin" ++ [double_quote]) ++ [0x0A]) 2%nat =
  get_current_time_local sample_system sample_exception_text (py "Europe/Berlin") 2%nat.
Proof.
  apply (quoted_zone_accepted sample_system sample_exception_text
           (py "Europe/Berlin") [0x20] [0x0A] 2%nat);
    try reflexivity; vm_compute; intuition discriminate.
Defined.

(** ** The time text identifies the moment *)

Lemma below_bound (k : nat) (P : N -> bool) :
  forallb P (numbers_below k) = true -> forall c, c < N.of_nat k -> P c = true.
Proof.
  intros H c Hc. rewrite forallb_forall in H. apply H.
  unfold numbers_below. rewrite <- (N2Nat.id c). apply in_map, in_seq. lia.
Qed.

Lemma diverge_sound (a b x y : str) : diverge a b = true -> a ++ x <> b ++ y.
Proof.
  revert b. induction a as [|c a IH]; intros [|d b]; simpl; try discriminate.
  destruct (N.eqb_spec c d) as [->|Hne].
  - intros H E. injection E as E. apply (IH b H E).
  - intros _ E. injection E as E _. contradiction.
Qed.

Lemma names_diverge_sound (first k : nat) (names : list str) (i j : N) (x y : str) :
  names_diverge first k names = true ->
  N.of_nat first <= i < N.of_nat k -> N.of_nat first <= j < N.of_nat k ->
  nth (N.to_nat i) names [] ++ x = nth (N.to_nat j) names [] ++ y ->
  i = j.
Proof.
  unfold names_diverge. intros H Hi Hj E.
  pose proof (below_bound k _ H i (proj2 Hi)) as H1. cbv beta in H1.
  pose proof (below_bound k _ H1 j (proj2 Hj)) as H2. cbv beta in H2.
  rewrite !orb_true_iff in H2. destruct H2 as [[[H2|H2]|H2]|H2].
  - apply N.ltb_lt in H2. lia.
  - apply N.ltb_lt in H2. lia.
  - apply N.eqb_eq, H2.
  - exfalso. apply (diverge_sound _ _ x y H2 E).
Qed.

Lemma hour12_am_pm_inj (h1 h2 : N) :
  h1 <= 23 -> h2 <= 23 ->
  hour12 h1 = hour12 h2 -> am_pm h1 = am_pm h2 -> h1 = h2.
Proof.
  intros H1 H2 E12 Eap.
  assert (H : forallb (fun a => forallb (fun b =>
              implb ((hour12 a =? hour12 b) && str_eqb (am_pm a) (am_pm b)) (a =? b))
              (numbers_below 24)) (numbers_below 24) = true)
    by (vm_compute; reflexivity).
  pose proof (below_bound 24 _ H h1 ltac:(simpl; lia)) as Ha. cbv beta in Ha.
  pose proof (below_bound 24 _ Ha h2 ltac:(simpl; lia)) as Hb. cbv beta in Hb.
  rewrite E12, Eap, N.eqb_refl, str_eqb_refl in Hb. simpl in Hb.
  apply N.eqb_eq, Hb.
Qed.

Lemma hour12_bound (h : N) : hour12 h < 100.
Proof.
  unfold hour12.
  assert (H : h mod 12 < 12) by (apply N.mod_lt; discriminate).
  revert H. generalize (h mod 12). intros r H.
  destruct (r =? 0); lia.
Qed.

Lemma clock12_inj (a b : datetime) :
  datetime_in_range a -> datetime_in_range b ->
  strftime_clock12 a = strftime_clock12 b ->
  hour a = hour b /\ minute a = minute b /\ second a = second b.
Proof.
  intros (_ & _ & _ & Hh1 & Hm1 & Hs1) (_ & _ & _ & Hh2 & Hm2 & Hs2) E.
  unfold strftime_clock12 in E.
  change (py ":") with [0x3A] in E. change (py " ") with [0x20] in E.
  assert (E12 : two_digits (hour12 (hour a)) = two_digits (hour12 (hour b))).
  { unfold two_digits in *. cbn [app] in E. congruence. }
  assert (Em : two_digits (minute a) = two_digits (minute b)).
  { unfold two_digits in *. cbn [app] in E. congruence. }
  assert (Es : two_digits (second a) = two_digits (second b)).
  { unfold two_digits in *. cbn [app] in E. congruence. }
  assert (Eap : am_pm (hour a) = am_pm (hour b)).
  { unfold two_digits in *. cbn [app] in E. congruence. }
  apply two_digits_inj in E12; [|apply hour12_bound|apply hour12_bound].
  apply two_digits_inj in Em; [|lia|lia].
  apply two_digits_inj in Es; [|lia|lia].
  split; [|tauto]. apply hour12_am_pm_inj; assumption.
Qed.

Lemma long_date_inj (a b : datetime) :
  datetime_in_range a -> datetime_in_range b ->
  strftime_long_date a = strftime_long_date b ->
  year a = year b /\ month a = month b /\ day a = day b.
Proof.
  intros (Hy1 & Hm1 & Hd1 & _) (Hy2 & Hm2 & Hd2 & _) E.
  unfold strftime_long_date in E.
  assert (Hw : forall dt, 0 <= weekday dt < 7).
  { intros dt. split; [apply N.le_0_l|]. apply N.mod_lt. discriminate. }
  assert (Ew : weekday a = weekday b).
  { apply (names_diverge_sound 0 7 day_names _ _ _ _ eq_refl (Hw a) (Hw b) E). }
  rewrite Ew in E. apply app_inv_head, app_inv_head in E.
  assert (Em : month a = month b).
  { apply (names_diverge_sound 1 13 month_names _ _ _ _ eq_refl) in E;
      [exact E|simpl; lia|simpl; lia]. }
  rewrite Em in E. apply app_inv_head, app_inv_head in E.
  change (py ", ") with [0x2C; 0x20] in E.
  assert (Ed : two_digits (day a) = two_digits (day b)).
  { unfold two_digits, four_digits in *. cbn [app] in E. congruence. }
  assert (Ey : four_digits (year a) = four_digits (year b)).
  { unfold two_digits, four_digits in *. cbn [app] in E. congruence. }
  apply two_digits_inj in Ed; [|lia|lia].
  apply four_digits_inj in Ey; [|lia|lia].
  tauto.
Qed.

(** The two texts [get_current_time_local] formats, the 12-hour time with its
    AM or PM and the long date, determine the local time to the second: two
    moments that are formatted alike are the same. *)
Theorem local_time_text_identifies_moment (a b : datetime) :
  datetime_in_range a -> datetime_in_range b ->
  strftime_clock12 a = strftime_clock12 b ->
  strftime_long_date a = strftime_long_date b ->
  a = b.
Proof.
  intros Ha Hb Eclock Edate.
  destruct (clock12_inj a b Ha Hb Eclock) as (Eh & Em & Es).
  destruct (long_date_inj a b Ha Hb Edate) as (Ey & Emo & Ed).
  destruct a, b. simpl in *. congruence.
Qed.

Lemma local_time_text_identifies_moment_witness :
  mk_datetime 2026 11 3 0 5 9 = mk_datetime 2026 11 (1 + 2) 0 5 9.
Proof.
  apply (local_time_text_identifies_moment
           (mk_datetime 2026 11 3 0 5 9) (mk_datetime 2026 11 (1 + 2) 0 5 9));
    try reflexivity; vm_compute; repeat split; discriminate.
Defined.

(** ** The two tools agree on the time of day *)

(** For a local time, the bucket of the weather server and the AM or PM of the
    time tool fit together: a morning is AM, an afternoon or an evening is PM. *)
Theorem bucket_agrees_with_am_pm (dt : datetime) :
  hour dt <= 23 ->
  (_get_time_bucket dt = py "morning" -> am_pm (hour dt) = py "AM") /\
  (_get_time_bucket dt = py "afternoon" \/ _get_time_bucket dt = py "evening" ->
   am_pm (hour dt) = py "PM") /\
  (am_pm (hour dt) = py "AM" ->
   _get_time_bucket dt = py "night" \/ _get_time_bucket dt = py "morning").
Proof.
  intros Hday. unfold am_pm.
  destruct (N.ltb_spec (hour dt) 12);
    bucket_cases dt; repeat split; intros; try tauto; try reflexivity;
    try discriminate; intuition discriminate.
Qed.

Lemma bucket_agrees_with_am_pm_witness :
  am_pm (hour (mk_datetime 2026 11 3 17 30 0)) = py "PM".
Proof.
  destruct (bucket_agrees_with_am_pm (mk_datetime 2026 11 3 17 30 0)) as (_ & H & _).
  - simpl. lia.
  - apply H. left. reflexivity.
Defined.
